(** * ReiserCalculator: the simulation core of [app.py]

    A shallow embedding of the numeric core of the Swiss investment strategy
    simulator: the regulatory amortization rule, the payment calculator, the
    three annual strategy simulators and the monthly loan-to-value tracker.

    Numbers.  In the definitions the theorems are proved over, Python
    [float] values are exact rationals [Q]; comparisons are the decidable
    ones of [QArith], and [==] on floats is [Qeq_bool] (equality of values,
    not of representations).  The only operation of the source that leaves
    the rationals is [x ** (1/12)]; it is kept abstract as the parameter
    [pow_twelfth] of the two functions that use it.  Python itself computes
    in IEEE binary64, where every operation rounds: a threshold met to the
    last digit can fall on the other side, and an increment below the
    rounding unit of a balance is absorbed.  Module [Binary64] holds the
    lines of the source where this decides a result, in binary64 itself, and
    module [Rounding] evaluates them; the theorems over [Q] are stated with
    the comparisons the code makes, and where rounding can undo a strict
    inequality they state the one that is not strict.

    Errors.  The only exception the core can raise on numeric input is
    [ZeroDivisionError] in [down_payment / property_price]; functions that
    evaluate this quotient return [option], [None] standing for the raise.

    Loops.  A [for] loop is the left fold of its body over [range]; the
    loop-local variables that survive an iteration are the fields of a state
    record, lists grow by [append] at their end. *)

From Stdlib Require Import QArith Qminmax Lqa Lia ZArith List Bool String.
From Stdlib Require Import Qpower.
From Stdlib Require Floats.PrimFloat.
Import ListNotations.
Open Scope Q_scope.

(** ** Python primitives on numbers *)

Module Py.

(** [x < y] and [x > y] as booleans. *)
Definition ltb (x y : Q) : bool := negb (Qle_bool y x).
Definition gtb (x y : Q) : bool := ltb y x.
(** [x >= y]. *)
Definition geb (x y : Q) : bool := Qle_bool y x.
(** [x == y]. *)
Definition eqb (x y : Q) : bool := Qeq_bool x y.

(** [x / y]; [None] is [ZeroDivisionError]. *)
Definition div (x y : Q) : option Q :=
  if Qeq_bool y 0 then None else Some (x / y).

(** [max(x, y)] keeps [x] unless [y] is strictly larger, [min(x, y)] keeps
    [x] unless [y] is strictly smaller: these are [Qmax] and [Qmin]. *)
Definition max (x y : Q) : Q := Qmax x y.
Definition min (x y : Q) : Q := Qmin x y.

(** [for i in range(n): s = body(s, i)]. *)
Definition for_range {S : Type} (n : nat) (body : S -> nat -> S) (s : S) : S :=
  fold_left body (seq 0 n) s.

Definition bind {A B : Type} (o : option A) (k : A -> option B) : option B :=
  match o with
  | Some a => k a
  | None => None
  end.

End Py.

Notation "x <- e ;; k" := (Py.bind e (fun x => k))
  (at level 61, e at next level, right associativity).

(** ** The regulatory amortization rule

    The expression every function evaluates for the required yearly
    amortization (lines 187-188, 230-233, 292-295, 345-348); [q] is the value
    of [down_payment / property_price]. *)
Definition min_amort_of_quotient (property_price loan q : Q) : Q :=
  if Py.gtb (1 - q) 0.667
  then (loan - property_price * 0.667) / 15
  else 0.

Definition min_amort_per_year (property_price down_payment : Q) : option Q :=
  q <- Py.div down_payment property_price ;;
  Some (min_amort_of_quotient property_price (property_price - down_payment) q).

(** ** [calculate_minimum_payments] (lines 182-197) *)

Record min_payments : Type := MinPayments {
  mp_monthly_interest : Q;
  mp_monthly_min_amort : Q;
  mp_total_min_payment : Q
}.

Definition calculate_minimum_payments
    (property_price down_payment interest_rate : Q) : option min_payments :=
  let loan := property_price - down_payment in
  let monthly_interest := (loan * interest_rate) / 12 in
  q <- Py.div down_payment property_price ;;
  let monthly_min_amort :=
    if Py.gtb (1 - q) 0.667
    then
      let min_amort_per_year := (loan - property_price * 0.667) / 15 in
      min_amort_per_year / 12
    else 0 in
  Some {| mp_monthly_interest := monthly_interest;
          mp_monthly_min_amort := monthly_min_amort;
          mp_total_min_payment := monthly_interest + monthly_min_amort |}.

(** ** [calculate_monthly_payments] (lines 223-257) *)

Record payments : Type := Payments {
  Interest : Q;
  Amortization : Q;
  Investment : Q;
  Is_Sufficient : bool
}.

Definition calculate_monthly_payments
    (property_price down_payment monthly_budget interest_rate : Q)
    (amort_years : Z) (is_hybrid : bool) : option payments :=
  let loan := property_price - down_payment in
  q <- Py.div down_payment property_price ;;
  let min_amort_per_year :=
    if Py.gtb (1 - q) 0.667
    then (loan - property_price * 0.667) / 15
    else 0 in
  let monthly_interest := (loan * interest_rate) / 12 in
  let monthly_min_amort := min_amort_per_year / 12 in
  let is_sufficient := Py.geb monthly_budget (monthly_interest + monthly_min_amort) in
  let '(monthly_amort, monthly_investment) :=
    if negb is_sufficient then
      (if Py.gtb monthly_budget monthly_interest
       then monthly_budget - monthly_interest
       else 0,
       0)
    else if is_hybrid then
      let monthly_amort := monthly_min_amort in
      (monthly_amort, monthly_budget - monthly_interest - monthly_amort)
    else
      (Py.min (loan / 12) (Py.max monthly_min_amort (monthly_budget - monthly_interest)),
       0) in
  Some {| Interest := monthly_interest;
          Amortization := monthly_amort;
          Investment := monthly_investment;
          Is_Sufficient := is_sufficient |}.

(** ** [simulate_investment_strategy] (lines 260-271)

    [monthly_rent] is the module-level slider value the function reads. *)

Definition investment_month (monthly_rent monthly_amount monthly_rate : Q)
    (s : Q * list Q) (i : nat) : Q * list Q :=
  let '(value, progression) := s in
  let value := value * (1 + monthly_rate) + (monthly_amount - monthly_rent) in
  if Nat.eqb (i mod 12) 11
  then (value, progression ++ [value])
  else (value, progression).

Definition simulate_investment_strategy (pow_twelfth : Q -> Q) (monthly_rent : Q)
    (monthly_amount annual_return initial_capital : Q) (years : nat) : list Q :=
  let monthly_rate := pow_twelfth (1 + annual_return) - 1 in
  let value := initial_capital in
  snd (Py.for_range (years * 12)
         (investment_month monthly_rent monthly_amount monthly_rate)
         (value, [])).

(** ** [simulate_real_estate_strategy] (lines 273-329)

    The record holds the variables of the function that live across
    iterations.  [amortization] and [monthly_investment] are assigned in every
    branch of the body and unbound before the first iteration (0 here).
    [portfolio_return] is read from the module level. *)

Record re_state : Type := ReState {
  re_balance : Q;
  re_property_value : Q;
  re_investment_value : Q;
  re_net_worth : list Q;
  re_payoff_year : option nat;
  re_amortization : Q;
  re_monthly_investment : Q
}.

Definition is_None {A : Type} (o : option A) : bool :=
  match o with None => true | Some _ => false end.

Definition real_estate_year (portfolio_return : Q)
    (monthly_budget interest_rate appreciation_rate : Q) (amort_years : Z)
    (continue_amortization : bool) (min_amort_per_year : Q)
    (s : re_state) (year : nat) : re_state :=
  let target_ltv := 0.667 in
  let balance := re_balance s in
  let investment_value := re_investment_value s in
  let net_worth := re_net_worth s in
  let payoff_year := re_payoff_year s in
  let property_value := re_property_value s * (1 + appreciation_rate) in
  let interest := balance * interest_rate in
  let current_ltv :=
    if Py.gtb property_value 0 then balance / property_value else 0 in
  let available_for_amort := monthly_budget * 12 - interest in
  if Py.eqb balance 0 then
    let monthly_investment := monthly_budget in
    let investment_value :=
      investment_value * (1 + portfolio_return) + (monthly_investment * 12) in
    let amortization := 0 in
    {| re_balance := balance; re_property_value := property_value;
       re_investment_value := investment_value;
       re_net_worth := net_worth ++ [property_value - balance + investment_value];
       re_payoff_year := payoff_year;
       re_amortization := amortization;
       re_monthly_investment := monthly_investment |}
  else if Py.gtb current_ltv target_ltv
          || (continue_amortization && (Z.of_nat year <? amort_years)%Z) then
    let amortization :=
      Py.min balance (Py.max min_amort_per_year available_for_amort) in
    let balance := balance - amortization in
    let monthly_investment := 0 in
    let payoff_year :=
      if Py.eqb balance 0 && is_None payoff_year
      then Some (year + 1)%nat
      else payoff_year in
    {| re_balance := balance; re_property_value := property_value;
       re_investment_value := investment_value;
       re_net_worth := net_worth ++ [property_value - balance + investment_value];
       re_payoff_year := payoff_year;
       re_amortization := amortization;
       re_monthly_investment := monthly_investment |}
  else
    let amortization := 0 in
    let monthly_investment :=
      Py.max 0 ((monthly_budget * 12 - interest) / 12) in
    let investment_value :=
      investment_value * (1 + portfolio_return) + (monthly_investment * 12) in
    {| re_balance := balance; re_property_value := property_value;
       re_investment_value := investment_value;
       re_net_worth := net_worth ++ [property_value - balance + investment_value];
       re_payoff_year := payoff_year;
       re_amortization := amortization;
       re_monthly_investment := monthly_investment |}.

Definition re_init (property_price down_payment : Q) : re_state :=
  let loan := property_price - down_payment in
  {| re_balance := loan; re_property_value := property_price;
     re_investment_value := 0; re_net_worth := [];
     re_payoff_year := None;
     re_amortization := 0; re_monthly_investment := 0 |}.

(** The state after the first [n] iterations of the loop. *)
Definition real_estate_run (portfolio_return : Q)
    (property_price down_payment monthly_budget
     interest_rate appreciation_rate : Q) (amort_years : Z)
    (continue_amortization : bool) (min_amort_per_year : Q) (n : nat) : re_state :=
  Py.for_range n
    (real_estate_year portfolio_return monthly_budget interest_rate
       appreciation_rate amort_years continue_amortization min_amort_per_year)
    (re_init property_price down_payment).

Definition simulate_real_estate_strategy (portfolio_return : Q)
    (property_price down_payment monthly_budget
     interest_rate appreciation_rate : Q) (amort_years : Z)
    (continue_amortization : bool) : option (list Q * option nat) :=
  let loan := property_price - down_payment in
  q <- Py.div down_payment property_price ;;
  let min_amort_per_year :=
    if Py.gtb (1 - q) 0.667
    then (loan - property_price * 0.667) / 15
    else 0 in
  let s := real_estate_run portfolio_return property_price down_payment
             monthly_budget interest_rate appreciation_rate amort_years
             continue_amortization min_amort_per_year 30 in
  Some (re_net_worth s, re_payoff_year s).

(** ** [simulate_hybrid_strategy] (lines 331-386) *)

Record hy_state : Type := HyState {
  hy_balance : Q;
  hy_property_value : Q;
  hy_investment_value : Q;
  hy_net_worth : list Q;
  hy_payoff_year : option nat;
  hy_monthly_min_amort : Q;
  hy_monthly_investment : Q
}.

(** The three-way branch of the body (lines 360-377): the state it leaves
    before the floor of the balance and the common investment update. *)
Definition hybrid_branch (monthly_budget interest_rate : Q)
    (portfolio_return : Q) (amort_years : Z) (min_amort_per_year : Q)
    (property_value : Q) (s : hy_state) (year : nat) : hy_state :=
  let target_ltv := 0.667 in
  let balance := hy_balance s in
  let investment_value := hy_investment_value s in
  let payoff_year := hy_payoff_year s in
  let interest := balance * interest_rate in
  let current_ltv :=
    if Py.gtb property_value 0 then balance / property_value else 0 in
  let monthly_interest := interest / 12 in
  if Py.eqb balance 0 then
    let monthly_min_amort := 0 in
    let monthly_investment := monthly_budget in
    let investment_value :=
      investment_value * (1 + portfolio_return) + (monthly_investment * 12) in
    {| hy_balance := balance; hy_property_value := property_value;
       hy_investment_value := investment_value;
       hy_net_worth := hy_net_worth s;
       hy_payoff_year := payoff_year;
       hy_monthly_min_amort := monthly_min_amort;
       hy_monthly_investment := monthly_investment |}
  else if Py.gtb current_ltv target_ltv && (Z.of_nat year <? amort_years)%Z then
    let monthly_min_amort := min_amort_per_year / 12 in
    let monthly_investment :=
      Py.max 0 (monthly_budget - monthly_interest - monthly_min_amort) in
    let balance := balance - min_amort_per_year in
    let payoff_year :=
      if Py.eqb balance 0 && is_None payoff_year
      then Some (year + 1)%nat
      else payoff_year in
    {| hy_balance := balance; hy_property_value := property_value;
       hy_investment_value := investment_value;
       hy_net_worth := hy_net_worth s;
       hy_payoff_year := payoff_year;
       hy_monthly_min_amort := monthly_min_amort;
       hy_monthly_investment := monthly_investment |}
  else
    let monthly_min_amort := 0 in
    let monthly_investment := Py.max 0 (monthly_budget - monthly_interest) in
    {| hy_balance := balance; hy_property_value := property_value;
       hy_investment_value := investment_value;
       hy_net_worth := hy_net_worth s;
       hy_payoff_year := payoff_year;
       hy_monthly_min_amort := monthly_min_amort;
       hy_monthly_investment := monthly_investment |}.

Definition hybrid_year (monthly_budget interest_rate appreciation_rate : Q)
    (portfolio_return : Q) (amort_years : Z) (min_amort_per_year : Q)
    (s : hy_state) (year : nat) : hy_state :=
  let property_value := hy_property_value s * (1 + appreciation_rate) in
  let b := hybrid_branch monthly_budget interest_rate portfolio_return
             amort_years min_amort_per_year property_value s year in
  let balance := Py.max 0 (hy_balance b) in
  let investment_value :=
    hy_investment_value b * (1 + portfolio_return)
    + (hy_monthly_investment b * 12) in
  {| hy_balance := balance; hy_property_value := property_value;
     hy_investment_value := investment_value;
     hy_net_worth :=
       hy_net_worth b ++ [property_value - balance + investment_value];
     hy_payoff_year := hy_payoff_year b;
     hy_monthly_min_amort := hy_monthly_min_amort b;
     hy_monthly_investment := hy_monthly_investment b |}.

Definition hy_init (property_price down_payment : Q) : hy_state :=
  let loan := property_price - down_payment in
  {| hy_balance := loan; hy_property_value := property_price;
     hy_investment_value := 0; hy_net_worth := [];
     hy_payoff_year := None;
     hy_monthly_min_amort := 0; hy_monthly_investment := 0 |}.

Definition hybrid_run
    (property_price down_payment monthly_budget
     interest_rate appreciation_rate portfolio_return : Q) (amort_years : Z)
    (min_amort_per_year : Q) (n : nat) : hy_state :=
  Py.for_range n
    (hybrid_year monthly_budget interest_rate appreciation_rate
       portfolio_return amort_years min_amort_per_year)
    (hy_init property_price down_payment).

Definition simulate_hybrid_strategy
    (property_price down_payment monthly_budget
     interest_rate appreciation_rate portfolio_return : Q) (amort_years : Z)
    : option (list Q * option nat) :=
  let loan := property_price - down_payment in
  q <- Py.div down_payment property_price ;;
  let min_amort_per_year :=
    if Py.gtb (1 - q) 0.667
    then (loan - property_price * 0.667) / 15
    else 0 in
  let s := hybrid_run property_price down_payment monthly_budget interest_rate
             appreciation_rate portfolio_return amort_years
             min_amort_per_year 30 in
  Some (hy_net_worth s, hy_payoff_year s).

(** ** [calculate_ltv_progression] (lines 561-639)

    [real_estate_growth] is read from the module level; [monthly_growth]
    below is the value of [(1 + real_estate_growth) ** (1/12)].  The local
    [investment_value] of the source is never read and is left out. *)

Record ltv_state : Type := LtvState {
  lt_balance : Q;
  lt_property_value : Q;
  lt_years_to_target : option nat;
  lt_target_reached : bool;
  lt_balance_progression : list Q;
  lt_ltv_progression : list Q;
  lt_amort_progression : list Q
}.

(** [current_ltv] of a month, from the balance the month starts with and the
    property value after the month's growth (line 596). *)
Definition ltv_current (balance property_value : Q) : Q :=
  if Py.gtb property_value 0 then balance / property_value else 0.

(** [monthly_amort] of a month (lines 599-618), the target bookkeeping of
    lines 600-602 apart. *)
Definition ltv_monthly_amort (strategy : string)
    (monthly_budget interest_rate min_monthly_amort : Q)
    (balance current_ltv : Q) : Q :=
  let target_ltv := 0.667 in
  let monthly_interest := balance * interest_rate / 12 in
  if Qle_bool current_ltv target_ltv then
    if String.eqb strategy "pure_max" then
      let available_for_amort := monthly_budget - monthly_interest in
      Py.min balance (Py.max min_monthly_amort available_for_amort)
    else 0
  else
    if String.eqb strategy "hybrid" then min_monthly_amort
    else
      let available_for_amort := monthly_budget - monthly_interest in
      Py.min balance (Py.max min_monthly_amort available_for_amort).

Definition ltv_month (monthly_growth : Q) (strategy : string)
    (monthly_budget interest_rate min_monthly_amort : Q)
    (s : ltv_state) (month : nat) : ltv_state :=
  let target_ltv := 0.667 in
  let balance := lt_balance s in
  let property_value := lt_property_value s * monthly_growth in
  let current_ltv := ltv_current balance property_value in
  let '(target_reached, years_to_target) :=
    if Qle_bool current_ltv target_ltv then
      if negb (lt_target_reached s)
      then (true, Some (month / 12 + 1)%nat)
      else (lt_target_reached s, lt_years_to_target s)
    else (lt_target_reached s, lt_years_to_target s) in
  let monthly_amort :=
    ltv_monthly_amort strategy monthly_budget interest_rate min_monthly_amort
      balance current_ltv in
  let balance := Py.max 0 (balance - monthly_amort) in
  {| lt_balance := balance;
     lt_property_value := property_value;
     lt_years_to_target := years_to_target;
     lt_target_reached := target_reached;
     lt_balance_progression := lt_balance_progression s ++ [balance];
     lt_ltv_progression := lt_ltv_progression s ++ [current_ltv];
     lt_amort_progression := lt_amort_progression s ++ [monthly_amort] |}.

Definition ltv_init (property_price down_payment : Q) : ltv_state :=
  let loan := property_price - down_payment in
  {| lt_balance := loan;
     lt_property_value := property_price;
     lt_years_to_target := None;
     lt_target_reached := false;
     lt_balance_progression := [];
     lt_ltv_progression := [];
     lt_amort_progression := [] |}.

(** [min_monthly_amort] (lines 576-577). *)
Definition ltv_min_monthly_amort (property_price down_payment : Q) : Q :=
  let loan := property_price - down_payment in
  let target_ltv := 0.667 in
  let required_loan_reduction := loan - (property_price * target_ltv) in
  required_loan_reduction / (15 * 12).

(** The state after the first [n] months. *)
Definition ltv_run (pow_twelfth : Q -> Q) (real_estate_growth : Q)
    (property_price down_payment monthly_budget interest_rate : Q)
    (strategy : string) (n : nat) : ltv_state :=
  Py.for_range n
    (ltv_month (pow_twelfth (1 + real_estate_growth)) strategy monthly_budget
       interest_rate (ltv_min_monthly_amort property_price down_payment))
    (ltv_init property_price down_payment).

Record ltv_debug : Type := LtvDebug {
  dbg_property_price : Q;
  dbg_loan : Q;
  dbg_target_ltv : Q;
  dbg_required_loan_reduction : Q;
  dbg_min_monthly_amort : Q;
  dbg_initial_monthly_interest : Q;
  dbg_years_to_target : option nat;
  dbg_final_ltv : Q;
  dbg_final_balance : Q;
  dbg_strategy : string
}.

Definition calculate_ltv_progression (pow_twelfth : Q -> Q)
    (real_estate_growth : Q)
    (property_price down_payment monthly_budget interest_rate : Q)
    (strategy : string) : option nat * list Q * list Q * ltv_debug :=
  let loan := property_price - down_payment in
  let target_ltv := 0.667 in
  let required_loan_reduction := loan - (property_price * target_ltv) in
  let min_monthly_amort :=
    ltv_min_monthly_amort property_price down_payment in
  let initial_monthly_interest := (loan * interest_rate) / 12 in
  let s := ltv_run pow_twelfth real_estate_growth property_price down_payment
             monthly_budget interest_rate strategy 360 in
  (lt_years_to_target s, lt_balance_progression s, lt_ltv_progression s,
   {| dbg_property_price := property_price;
      dbg_loan := loan;
      dbg_target_ltv := target_ltv;
      dbg_required_loan_reduction := required_loan_reduction;
      dbg_min_monthly_amort := min_monthly_amort;
      dbg_initial_monthly_interest := initial_monthly_interest;
      dbg_years_to_target := lt_years_to_target s;
      dbg_final_ltv := last (lt_ltv_progression s) 0;
      dbg_final_balance := last (lt_balance_progression s) 0;
      dbg_strategy := strategy |}).

(** ** Module-level computations around the core *)

(** The test of line 205 that shows the budget warning of the sidebar. *)
Definition budget_warning
    (flat_price equity interest_rate monthly_cap : Q) : option bool :=
  min_payments <- calculate_minimum_payments flat_price equity interest_rate ;;
  Some (Py.ltb monthly_cap (mp_total_min_payment min_payments)).

(** The lookup of lines 664-668 (and 672-676, 680-684): under the guard
    [(1 - equity/flat_price) > 0.667] of line 664, no marker when the
    completion year is [None] or 0, else the net worth at index
    [completion_year - 1]; without the guard no lookup at all.  The outer
    [None] is an exception: [ZeroDivisionError] in the guard or [IndexError]
    in the lookup. *)
Definition completion_marker (flat_price equity : Q) (progression : list Q)
    (completion_year : option nat) : option (option Q) :=
  q <- Py.div equity flat_price ;;
  if Py.gtb (1 - q) 0.667 then
    match completion_year with
    | None => Some None
    | Some 0%nat => Some None
    | Some (S i) =>
        match nth_error progression i with
        | Some value => Some (Some value)
        | None => None
        end
    end
  else Some None.

(** The yearly samples of lines 703-705, [[ltv[i*12] for i in range(30)]];
    [None] is [IndexError]. *)
Fixpoint sample_every_12 (ltv : list Q) (indices : list nat)
    : option (list Q) :=
  match indices with
  | [] => Some []
  | i :: rest =>
      value <- nth_error ltv (i * 12) ;;
      values <- sample_every_12 ltv rest ;;
      Some (value :: values)
  end.

Definition yearly_ltv (ltv : list Q) : option (list Q) :=
  sample_every_12 ltv (seq 0 30).

(** ** Reference step of the pure-investment strategy

    The monthly step in the words of the specification: one month of growth
    at [monthly_rate], then the contribution [monthly_budget - monthly_rent],
    which may be negative. *)
Definition investment_step (monthly_rent monthly_budget monthly_rate : Q)
    (value : Q) : Q :=
  value * (1 + monthly_rate) + (monthly_budget - monthly_rent).

(** ** Reference search

    Position of the first element of a list that passes a test. *)
Fixpoint first_index {A : Type} (p : A -> bool) (l : list A) : option nat :=
  match l with
  | [] => None
  | x :: l' => if p x then Some 0%nat else option_map S (first_index p l')
  end.

(** ** The source in binary64

    The amortization rule and the loan-to-value tracker once more, line for
    line, in the arithmetic Python runs them in: IEEE binary64 with rounding
    to nearest, which is what the primitive floats compute.  [max] and [min]
    are Python's: they keep their first argument unless the second is
    strictly larger, respectively smaller.  The integer operands of the
    source ([0], [12], [15 * 12], the slider values) are exact in binary64. *)

Module Binary64.
Import PrimFloat.
#[local] Set Warnings "-inexact-float".
Local Open Scope float_scope.

Definition gtb (x y : float) : bool := ltb y x.
Definition max (x y : float) : float := if ltb x y then y else x.
Definition min (x y : float) : float := if ltb y x then y else x.

(** [x / y]; [None] is [ZeroDivisionError]. *)
Definition checked_div (x y : float) : option float :=
  if eqb y 0 then None else Some (x / y).

(** Lines 227-233 (and 283-295, 336-348). *)
Definition min_amort_per_year (property_price down_payment : float)
    : option float :=
  let loan := property_price - down_payment in
  match checked_div down_payment property_price with
  | None => None
  | Some q =>
      Some (if gtb (1 - q) 0.667
            then (loan - property_price * 0.667) / 15
            else 0)
  end.

(** [calculate_ltv_progression], lines 561-625. *)
Record ltv_state : Type := LtvState {
  lt_balance : float;
  lt_property_value : float;
  lt_years_to_target : option nat;
  lt_target_reached : bool;
  lt_balance_progression : list float;
  lt_ltv_progression : list float;
  lt_amort_progression : list float
}.

Definition ltv_month (monthly_growth : float) (strategy : string)
    (monthly_budget interest_rate min_monthly_amort : float)
    (s : ltv_state) (month : nat) : ltv_state :=
  let target_ltv := 0.667 in
  let balance := lt_balance s in
  let property_value := lt_property_value s * monthly_growth in
  let monthly_interest := balance * interest_rate / 12 in
  let current_ltv :=
    if gtb property_value 0 then balance / property_value else 0 in
  let '(target_reached, years_to_target) :=
    if leb current_ltv target_ltv then
      if negb (lt_target_reached s)
      then (true, Some (month / 12 + 1)%nat)
      else (lt_target_reached s, lt_years_to_target s)
    else (lt_target_reached s, lt_years_to_target s) in
  let monthly_amort :=
    if leb current_ltv target_ltv then
      if String.eqb strategy "pure_max" then
        let available_for_amort := monthly_budget - monthly_interest in
        min balance (max min_monthly_amort available_for_amort)
      else 0
    else
      if String.eqb strategy "hybrid" then min_monthly_amort
      else
        let available_for_amort := monthly_budget - monthly_interest in
        min balance (max min_monthly_amort available_for_amort) in
  let balance := max 0 (balance - monthly_amort) in
  {| lt_balance := balance;
     lt_property_value := property_value;
     lt_years_to_target := years_to_target;
     lt_target_reached := target_reached;
     lt_balance_progression := lt_balance_progression s ++ [balance];
     lt_ltv_progression := lt_ltv_progression s ++ [current_ltv];
     lt_amort_progression := lt_amort_progression s ++ [monthly_amort] |}.

Definition ltv_init (property_price down_payment : float) : ltv_state :=
  let loan := property_price - down_payment in
  {| lt_balance := loan;
     lt_property_value := property_price;
     lt_years_to_target := None;
     lt_target_reached := false;
     lt_balance_progression := [];
     lt_ltv_progression := [];
     lt_amort_progression := [] |}.

Definition ltv_min_monthly_amort (property_price down_payment : float)
    : float :=
  let loan := property_price - down_payment in
  let target_ltv := 0.667 in
  let required_loan_reduction := loan - (property_price * target_ltv) in
  required_loan_reduction / (15 * 12).

(** The state after the first [n] months; [pow_twelfth] stands for
    [x ** (1/12)], which is the identity at [x = 1]. *)
Definition ltv_run (pow_twelfth : float -> float) (real_estate_growth : float)
    (property_price down_payment monthly_budget interest_rate : float)
    (strategy : string) (n : nat) : ltv_state :=
  Py.for_range n
    (ltv_month (pow_twelfth (1 + real_estate_growth)) strategy monthly_budget
       interest_rate (ltv_min_monthly_amort property_price down_payment))
    (ltv_init property_price down_payment).

End Binary64.

(** * Properties *)

(** ** Reflection of the Python comparisons *)

Lemma gtb_true (x y : Q) : Py.gtb x y = true <-> y < x.
Proof.
  unfold Py.gtb, Py.ltb. rewrite negb_true_iff.
  split; intro H.
  - apply Qnot_le_lt. intro Hle. apply Qle_bool_iff in Hle. congruence.
  - destruct (Qle_bool x y) eqn:E; [|reflexivity].
    apply Qle_bool_iff in E. lra.
Qed.

Lemma gtb_false (x y : Q) : Py.gtb x y = false <-> x <= y.
Proof.
  unfold Py.gtb, Py.ltb. rewrite negb_false_iff. apply Qle_bool_iff.
Qed.

Lemma geb_true (x y : Q) : Py.geb x y = true <-> y <= x.
Proof. unfold Py.geb. apply Qle_bool_iff. Qed.

Lemma geb_false (x y : Q) : Py.geb x y = false <-> x < y.
Proof.
  unfold Py.geb. split; intro H.
  - apply Qnot_le_lt. intro Hle. apply Qle_bool_iff in Hle. congruence.
  - destruct (Qle_bool y x) eqn:E; [|reflexivity].
    apply Qle_bool_iff in E. lra.
Qed.

Lemma leb_false (x y : Q) : Qle_bool x y = false <-> y < x.
Proof. apply (geb_false y x). Qed.

Lemma eqb_true (x y : Q) : Py.eqb x y = true <-> x == y.
Proof. unfold Py.eqb. apply Qeq_bool_iff. Qed.

Lemma eqb_false (x y : Q) : Py.eqb x y = false <-> ~ x == y.
Proof.
  unfold Py.eqb. split; intro H.
  - now apply Qeq_bool_neq.
  - destruct (Qeq_bool x y) eqn:E; [|reflexivity].
    apply Qeq_bool_iff in E. contradiction.
Qed.

Lemma div_Some (x y : Q) : ~ y == 0 -> Py.div x y = Some (x / y).
Proof.
  intro H. unfold Py.div.
  destruct (Qeq_bool y 0) eqn:E; [|reflexivity].
  apply Qeq_bool_iff in E. contradiction.
Qed.

Lemma max_cases (x y : Q) :
  (x < y /\ Py.max x y = y) \/ (y <= x /\ Py.max x y = x).
Proof.
  unfold Py.max, Qmax, GenericMinMax.gmax.
  destruct (x ?= y) eqn:E.
  - right. split; [|reflexivity]. apply Qeq_alt in E. lra.
  - left. split; [|reflexivity]. now apply Qlt_alt.
  - right. split; [|reflexivity]. apply Qgt_alt in E. lra.
Qed.

Lemma min_cases (x y : Q) :
  (y < x /\ Py.min x y = y) \/ (x <= y /\ Py.min x y = x).
Proof.
  unfold Py.min, Qmin, GenericMinMax.gmin.
  destruct (x ?= y) eqn:E.
  - right. split; [|reflexivity]. apply Qeq_alt in E. lra.
  - right. split; [|reflexivity]. apply Qlt_alt in E. lra.
  - left. split; [|reflexivity]. now apply Qgt_alt.
Qed.

(** ** Loops *)

Lemma for_range_0 {S : Type} (body : S -> nat -> S) (s : S) :
  Py.for_range 0 body s = s.
Proof. reflexivity. Qed.

Lemma for_range_S {S : Type} (n : nat) (body : S -> nat -> S) (s : S) :
  Py.for_range (Datatypes.S n) body s = body (Py.for_range n body s) n.
Proof.
  unfold Py.for_range. rewrite seq_S, fold_left_app. reflexivity.
Qed.

(** ** The regulatory amortization rule *)

Lemma quotient_ltv (property_price down_payment : Q) :
  ~ property_price == 0 ->
  1 - down_payment / property_price
  == (property_price - down_payment) / property_price.
Proof. intro H. field. exact H. Qed.

Lemma min_amort_per_year_Some (property_price down_payment : Q) :
  ~ property_price == 0 ->
  min_amort_per_year property_price down_payment
  = Some (min_amort_of_quotient property_price (property_price - down_payment)
            (down_payment / property_price)).
Proof.
  intro H. unfold min_amort_per_year. rewrite (div_Some _ _ H). reflexivity.
Qed.

Lemma ltv_above_iff (property_price down_payment : Q) :
  0 < property_price ->
  Py.gtb (1 - down_payment / property_price) 0.667 = true
  <-> 0.667 < (property_price - down_payment) / property_price.
Proof.
  intro Hp. rewrite gtb_true.
  rewrite quotient_ltv by lra. reflexivity.
Qed.

(** C4, amended.  For every property price other than 0, with
    [loan = property_price - down_payment]: the required yearly amortization
    is 0 when [1 - down_payment / property_price], the quotient the code
    compares, is at most 0.667, and [(loan - property_price * 0.667) / 15]
    when it exceeds 0.667.  The same value [m] is the one
    [calculate_minimum_payments] divides by 12, the one
    [calculate_monthly_payments] tests the budget against, and the one both
    annual simulators run their loops with.  (Over the rationals the
    quotient is [loan / property_price]; in binary64 the two can fall on
    different sides of 0.667.) *)
Theorem C4_minimum_annual_amortization (property_price down_payment : Q) :
  ~ property_price == 0 ->
  let loan := property_price - down_payment in
  let ratio := 1 - down_payment / property_price in
  exists m : Q,
    min_amort_per_year property_price down_payment = Some m
    /\ (ratio <= 0.667 -> m = 0)
    /\ (0.667 < ratio -> m = (loan - property_price * 0.667) / 15)
    /\ (forall interest_rate, exists mp,
          calculate_minimum_payments property_price down_payment interest_rate
          = Some mp
          /\ mp_monthly_min_amort mp == m / 12)
    /\ (forall monthly_budget interest_rate amort_years is_hybrid, exists p,
          calculate_monthly_payments property_price down_payment monthly_budget
            interest_rate amort_years is_hybrid = Some p
          /\ Is_Sufficient p
             = Py.geb monthly_budget ((loan * interest_rate) / 12 + m / 12))
    /\ (forall portfolio_return monthly_budget interest_rate appreciation_rate
               amort_years continue_amortization,
          simulate_real_estate_strategy portfolio_return property_price
            down_payment monthly_budget interest_rate appreciation_rate
            amort_years continue_amortization
          = let s := real_estate_run portfolio_return property_price
                       down_payment monthly_budget interest_rate
                       appreciation_rate amort_years continue_amortization
                       m 30 in
            Some (re_net_worth s, re_payoff_year s))
    /\ (forall monthly_budget interest_rate appreciation_rate portfolio_return
               amort_years,
          simulate_hybrid_strategy property_price down_payment monthly_budget
            interest_rate appreciation_rate portfolio_return amort_years
          = let s := hybrid_run property_price down_payment monthly_budget
                       interest_rate appreciation_rate portfolio_return
                       amort_years m 30 in
            Some (hy_net_worth s, hy_payoff_year s)).
Proof.
  intros Hnz loan ratio.
  exists (min_amort_of_quotient property_price loan
            (down_payment / property_price)).
  split; [apply min_amort_per_year_Some; exact Hnz|].
  split; [|split; [|split; [|split; [|split]]]].
  - intro Hle. unfold min_amort_of_quotient. fold ratio.
    destruct (Py.gtb ratio 0.667) eqn:E; [|reflexivity].
    apply gtb_true in E. lra.
  - intro Hgt. unfold min_amort_of_quotient. fold ratio.
    destruct (Py.gtb ratio 0.667) eqn:E; [reflexivity|].
    apply gtb_false in E. lra.
  - intro interest_rate. unfold calculate_minimum_payments.
    rewrite (div_Some _ _ Hnz). cbn [Py.bind].
    eexists. split; [reflexivity|]. cbn [mp_monthly_min_amort].
    unfold min_amort_of_quotient. fold loan.
    destruct (Py.gtb (1 - down_payment / property_price) 0.667).
    + reflexivity.
    + field.
  - intros monthly_budget interest_rate amort_years is_hybrid.
    unfold calculate_monthly_payments.
    rewrite (div_Some _ _ Hnz). cbn [Py.bind].
    fold loan.
    fold (min_amort_of_quotient property_price loan
            (down_payment / property_price)).
    match goal with
    | |- context [let '(a, b) := ?e in _] => destruct e
    end.
    eexists. split; reflexivity.
  - intros. unfold simulate_real_estate_strategy.
    rewrite (div_Some _ _ Hnz). reflexivity.
  - intros. unfold simulate_hybrid_strategy.
    rewrite (div_Some _ _ Hnz). reflexivity.
Qed.

Lemma C4_minimum_annual_amortization_witness :
  0.667 < 1 - 200000 / 1000000 /\
  exists m : Q,
    min_amort_per_year 1000000 200000 = Some m
    /\ m == (800000 - 667000) / 15.
Proof.
  assert (Hgt : 0.667 < 1 - 200000 / 1000000) by reflexivity.
  split; [exact Hgt|].
  destruct (C4_minimum_annual_amortization 1000000 200000)
    as (m & Hm & _ & Hm' & _); [discriminate|].
  exists m. split; [exact Hm|].
  rewrite (Hm' Hgt). reflexivity.
Defined.

(** ** The payment calculator *)

(** C5.  Whenever the calculator returns (the property price is not 0), with
    [monthly_interest = loan * interest_rate / 12] and [monthly_min_amort]
    the required yearly amortization divided by 12: [Is_Sufficient] holds
    exactly when the budget covers interest plus minimum; an insufficient
    budget amortizes [max(0, budget - interest)] and invests 0; a sufficient
    budget amortizes exactly the minimum and invests the remainder in the
    hybrid mode, and amortizes [min(loan/12, max(minimum, budget - interest))]
    and invests 0 otherwise. *)
Theorem C5_payment_calculator
    (property_price down_payment monthly_budget interest_rate : Q)
    (amort_years : Z) (is_hybrid : bool) :
  ~ property_price == 0 ->
  let loan := property_price - down_payment in
  let monthly_interest := loan * interest_rate / 12 in
  exists (m : Q) (p : payments),
    min_amort_per_year property_price down_payment = Some m
    /\ calculate_monthly_payments property_price down_payment monthly_budget
         interest_rate amort_years is_hybrid = Some p
    /\ let monthly_min_amort := m / 12 in
       Interest p == monthly_interest
       /\ (Is_Sufficient p = true
           <-> monthly_interest + monthly_min_amort <= monthly_budget)
       /\ (monthly_budget < monthly_interest + monthly_min_amort ->
           Amortization p == Qmax 0 (monthly_budget - monthly_interest)
           /\ Investment p == 0)
       /\ (monthly_interest + monthly_min_amort <= monthly_budget ->
           is_hybrid = true ->
           Amortization p == monthly_min_amort
           /\ Investment p
              == monthly_budget - monthly_interest - monthly_min_amort)
       /\ (monthly_interest + monthly_min_amort <= monthly_budget ->
           is_hybrid = false ->
           Amortization p
           == Qmin (loan / 12)
                (Qmax monthly_min_amort (monthly_budget - monthly_interest))
           /\ Investment p == 0).
Proof.
  intros Hnz loan monthly_interest.
  exists (min_amort_of_quotient property_price loan
            (down_payment / property_price)).
  unfold calculate_monthly_payments.
  rewrite (div_Some _ _ Hnz). cbn [Py.bind].
  fold loan.
  fold (min_amort_of_quotient property_price loan
          (down_payment / property_price)).
  set (m := min_amort_of_quotient property_price loan
              (down_payment / property_price)).
  fold monthly_interest.
  destruct (Py.geb monthly_budget (monthly_interest + m / 12)) eqn:Esuff;
    cbn [negb].
  - (* sufficient *)
    apply geb_true in Esuff.
    destruct is_hybrid.
    + eexists. split; [apply min_amort_per_year_Some; exact Hnz|].
      split; [reflexivity|]. cbn.
      split; [reflexivity|].
      split; [split; [intros _; exact Esuff | reflexivity]|].
      split; [intro; lra|].
      split; [intros _ _; split; reflexivity|].
      intros _ Hh. discriminate Hh.
    + eexists. split; [apply min_amort_per_year_Some; exact Hnz|].
      split; [reflexivity|]. cbn.
      split; [reflexivity|].
      split; [split; [intros _; exact Esuff | reflexivity]|].
      split; [intro; lra|].
      split; [intros _ Hh; discriminate Hh|].
      intros _ _. split; reflexivity.
  - (* insufficient *)
    apply geb_false in Esuff.
    eexists. split; [apply min_amort_per_year_Some; exact Hnz|].
    split; [reflexivity|]. cbn.
    split; [reflexivity|].
    split; [split; [intro Hd; discriminate Hd | intro; lra]|].
    split.
    + intros _. split; [|reflexivity].
      destruct (Py.gtb monthly_budget monthly_interest) eqn:Eg.
      * apply gtb_true in Eg. rewrite Q.max_r by lra. reflexivity.
      * apply gtb_false in Eg. rewrite Q.max_l by lra. reflexivity.
    + split; intros; lra.
Qed.

Lemma C5_payment_calculator_witness :
  exists p : payments,
    calculate_monthly_payments 1000000 200000 3500 0.015 15 true = Some p
    /\ Interest p == 1000
    /\ Is_Sufficient p = true.
Proof.
  destruct (C5_payment_calculator 1000000 200000 3500 0.015 15 true)
    as (m & p & Hm & Hp & Hi & Hs & _).
  - discriminate.
  - exists p. split; [exact Hp|]. split.
    + rewrite Hi. reflexivity.
    + apply Hs.
      unfold min_amort_per_year in Hm. cbn in Hm.
      injection Hm as <-. discriminate.
Defined.

(** ** The pure-investment simulator *)

Lemma div12_succ (n : nat) :
  (if Nat.eqb (n mod 12) 11
   then S n / 12 = S (n / 12) /\ S n = 12 * (n / 12 + 1)
   else S n / 12 = n / 12)%nat.
Proof.
  pose proof (Nat.div_mod_eq n 12) as Hn.
  pose proof (Nat.mod_upper_bound n 12 ltac:(discriminate)) as Hb.
  destruct (Nat.eqb (n mod 12) 11) eqn:E.
  - apply Nat.eqb_eq in E. split; [|lia].
    symmetry. apply (Nat.div_unique (S n) 12 (S (n / 12)) 0); lia.
  - apply Nat.eqb_neq in E.
    symmetry. apply (Nat.div_unique (S n) 12 (n / 12) (S (n mod 12))); lia.
Qed.

Lemma investment_loop (monthly_rent monthly_amount monthly_rate value : Q)
    (n : nat) :
  let step := investment_step monthly_rent monthly_amount monthly_rate in
  Py.for_range n (investment_month monthly_rent monthly_amount monthly_rate)
    (value, [])
  = (Nat.iter n step value,
     map (fun k => Nat.iter (12 * (k + 1)) step value) (seq 0 (n / 12))).
Proof.
  intro step. induction n as [|n IH].
  - reflexivity.
  - rewrite for_range_S, IH. unfold investment_month.
    pose proof (div12_succ n) as Hd.
    destruct (Nat.eqb (n mod 12) 11).
    + destruct Hd as [Hq Hs]. rewrite Hq, seq_S, map_app. cbn [map Nat.add].
      rewrite <- Hs. reflexivity.
    + rewrite Hd. reflexivity.
Qed.

(** C6.  For every input, the series of the pure-investment simulator has
    [years] elements, and its element [k] is the value after [12 * (k + 1)]
    applications of the monthly step, starting from the initial capital, with
    [monthly_rate = (1 + annual_return) ** (1/12) - 1].  Each application adds
    exactly [monthly_budget - monthly_rent] to the grown value, whatever its
    sign: a negative contribution is not clamped. *)
Theorem C6_investment_series (pow_twelfth : Q -> Q)
    (monthly_rent monthly_budget annual_return equity : Q) (years : nat) :
  let monthly_rate := pow_twelfth (1 + annual_return) - 1 in
  let step := investment_step monthly_rent monthly_budget monthly_rate in
  simulate_investment_strategy pow_twelfth monthly_rent monthly_budget
    annual_return equity years
  = map (fun k => Nat.iter (12 * (k + 1)) step equity) (seq 0 years)
  /\ forall value,
       step value - value * (1 + monthly_rate) == monthly_budget - monthly_rent.
Proof.
  intros monthly_rate step. split.
  - unfold simulate_investment_strategy. fold monthly_rate.
    rewrite investment_loop. cbn [snd].
    rewrite Nat.div_mul by discriminate. reflexivity.
  - intro value. unfold step, investment_step. ring.
Qed.

(** ** The hybrid simulator: the yearly investment update *)

Ltac q_compute := vm_compute; reflexivity.
Ltac q_differ := let H := fresh in intro H; vm_compute in H; discriminate H.

(** While a balance is owed, the year updates [investment_value] once, with
    the monthly investment of the branch taken. *)
Lemma hybrid_year_owing (monthly_budget interest_rate appreciation_rate
    portfolio_return : Q) (amort_years : Z) (min_amort_per_year : Q)
    (s : hy_state) (year : nat) :
  Py.eqb (hy_balance s) 0 = false ->
  let s' := hybrid_year monthly_budget interest_rate appreciation_rate
              portfolio_return amort_years min_amort_per_year s year in
  let monthly_interest := hy_balance s * interest_rate / 12 in
  hy_investment_value s'
  = hy_investment_value s * (1 + portfolio_return)
    + hy_monthly_investment s' * 12
  /\ (hy_monthly_investment s'
      = Py.max 0 (monthly_budget - monthly_interest - min_amort_per_year / 12)
      \/ hy_monthly_investment s'
         = Py.max 0 (monthly_budget - monthly_interest)).
Proof.
  intros Hb. cbv zeta. unfold hybrid_year, hybrid_branch. rewrite Hb.
  match goal with
  | |- context [if ?c then _ else _] => destruct c
  end; cbn; split; auto.
Qed.

(** Once the balance is 0, the year updates [investment_value] twice: in the
    branch (line 364) and again after it (line 382). *)
Lemma hybrid_year_paid_off (monthly_budget interest_rate appreciation_rate
    portfolio_return : Q) (amort_years : Z) (min_amort_per_year : Q)
    (s : hy_state) (year : nat) :
  Py.eqb (hy_balance s) 0 = true ->
  let s' := hybrid_year monthly_budget interest_rate appreciation_rate
              portfolio_return amort_years min_amort_per_year s year in
  hy_monthly_investment s' = monthly_budget
  /\ hy_investment_value s'
     = (hy_investment_value s * (1 + portfolio_return) + monthly_budget * 12)
       * (1 + portfolio_return)
       + monthly_budget * 12.
Proof.
  intros Hb. cbv zeta. unfold hybrid_year, hybrid_branch. rewrite Hb.
  cbn. split; reflexivity.
Qed.

(** C1, at [property_price = down_payment = 500000], [monthly_budget = 3500],
    [portfolio_return = 0.096]: the loan is 0 from the start, the first year
    invests the full budget, and [investment_value] ends the year at
    [(0 * 1.096 + 42000) * 1.096 + 42000 = 88032], not at the single update
    [0 * 1.096 + 12 * 3500 = 42000]; the first net worth is
    [510000 - 0 + 88032]. *)
Theorem C1_hybrid_invests_twice_when_paid_off :
  exists (m : Q) (net_worth : list Q) (payoff_year : option nat),
    min_amort_per_year 500000 500000 = Some m
    /\ simulate_hybrid_strategy 500000 500000 3500 0.015 0.02 0.096 15
       = Some (net_worth, payoff_year)
    /\ let s0 := hy_init 500000 500000 in
       let s1 := hybrid_run 500000 500000 3500 0.015 0.02 0.096 15 m 1 in
       hy_balance s0 == 0
       /\ hy_monthly_investment s1 == 3500
       /\ hy_investment_value s1 == 88032
       /\ ~ hy_investment_value s1
            == hy_investment_value s0 * (1 + 0.096) + 12 * 3500
       /\ nth 0 net_worth 0 == 598032.
Proof.
  eexists. eexists. eexists.
  split; [reflexivity|].
  split; [reflexivity|].
  cbv zeta.
  split; [q_compute|].
  split; [q_compute|].
  split; [q_compute|].
  split; [q_differ|].
  q_compute.
Qed.

(** ** Payoff year *)

(** C2, evaluated where the hybrid balance is brought to 0 by the floor.
    (a) [property_price = 500000], [down_payment = 2000000] (both within the
    sliders): the balance starts negative, the first year leaves it at 0 by
    the floor of line 379, and no payoff year is returned, while the
    real-estate simulator returns year 1 on the same input.
    (b) [property_price = 1000], [down_payment = -1000],
    [appreciation_rate = -0.5], [amort_years = 30]: year 23 starts with a
    positive balance, subtracts the minimum amortization below 0, passes the
    test of line 372 with a negative balance, floors it to 0, and no payoff
    year is returned. *)
Theorem C2_hybrid_payoff_year_misses_floor :
  (exists m : Q,
     min_amort_per_year 500000 2000000 = Some m
     /\ let run := hybrid_run 500000 2000000 3500 0.015 0.02 0.096 15 m in
        hy_balance (run 0%nat) < 0
        /\ hy_balance (run 1%nat) == 0
        /\ option_map snd
             (simulate_hybrid_strategy 500000 2000000 3500 0.015 0.02 0.096 15)
           = Some None
        /\ option_map snd
             (simulate_real_estate_strategy 0.096 500000 2000000 3500 0.015
                0.02 15 true)
           = Some (Some 1%nat))
  /\ (exists m : Q,
        min_amort_per_year 1000 (-1000) = Some m
        /\ let run := hybrid_run 1000 (-1000) 100 0 (-0.5) 0.096 30 m in
           (forall n, (n <= 22)%nat -> 0 < hy_balance (run n))
           /\ hy_balance
                (hybrid_branch 100 0 0.096 30 m
                   (hy_property_value (run 22%nat) * (1 + -0.5))
                   (run 22%nat) 22)
              < 0
           /\ hy_balance (run 23%nat) == 0
           /\ option_map snd
                (simulate_hybrid_strategy 1000 (-1000) 100 0 (-0.5) 0.096 30)
              = Some None).
Proof.
  split.
  - eexists. split; [reflexivity|]. cbv zeta.
    split; [q_compute|].
    split; [q_compute|].
    split; q_compute.
  - eexists. split; [reflexivity|]. cbv zeta.
    split.
    { intros n Hn.
      do 23 (destruct n as [|n]; [q_compute|]). lia. }
    split; [q_compute|].
    split; q_compute.
Qed.

(** ** The real-estate simulator, year by year *)

Section RealEstateYear.

Variables (portfolio_return monthly_budget interest_rate
           appreciation_rate : Q).
Variable amort_years : Z.
Variable continue_amortization : bool.
Variable min_amort_per_year : Q.

Let year_body :=
  real_estate_year portfolio_return monthly_budget interest_rate
    appreciation_rate amort_years continue_amortization min_amort_per_year.

(** The test of line 312. *)
Let amortizing (s : re_state) (year : nat) : bool :=
  Py.gtb (ltv_current (re_balance s)
            (re_property_value s * (1 + appreciation_rate))) 0.667
  || (continue_amortization && (Z.of_nat year <? amort_years)%Z).

(** What one iteration does to the balance, the amortization and the payoff
    year, branch by branch. *)
Lemma real_estate_year_cases (s : re_state) (year : nat) :
  let s' := year_body s year in
  let b := re_balance s in
  (Py.eqb b 0 = true
   /\ re_balance s' = b /\ re_amortization s' = 0
   /\ re_payoff_year s' = re_payoff_year s)
  \/ (Py.eqb b 0 = false /\ amortizing s year = true
      /\ re_amortization s'
         = Py.min b (Py.max min_amort_per_year
                       (monthly_budget * 12 - b * interest_rate))
      /\ re_balance s' = b - re_amortization s'
      /\ re_payoff_year s'
         = if Py.eqb (re_balance s') 0 && is_None (re_payoff_year s)
           then Some (year + 1)%nat
           else re_payoff_year s)
  \/ (Py.eqb b 0 = false /\ amortizing s year = false
      /\ re_balance s' = b /\ re_amortization s' = 0
      /\ re_payoff_year s' = re_payoff_year s).
Proof.
  cbv zeta. unfold year_body, real_estate_year, amortizing, ltv_current.
  destruct (Py.eqb (re_balance s) 0) eqn:Eb.
  - left. cbn. auto.
  - match goal with
    | |- context [if (?c || ?d) then _ else _] => destruct (c || d) eqn:Ec
    end.
    + right. left. cbn. auto.
    + right. right. cbn. auto.
Qed.

(** A recorded payoff year is never overwritten. *)
Lemma real_estate_year_keeps_payoff (s : re_state) (year y : nat) :
  re_payoff_year s = Some y ->
  re_payoff_year (year_body s year) = Some y.
Proof.
  intro Hy.
  destruct (real_estate_year_cases s year)
    as [(_ & _ & _ & Hp) | [(_ & _ & _ & _ & Hp) | (_ & _ & _ & _ & Hp)]];
    rewrite Hp, Hy; [reflexivity| |reflexivity].
  cbn [is_None]. rewrite andb_false_r. reflexivity.
Qed.

End RealEstateYear.

(** The real-estate simulator, started from a nonzero loan, returns the
    first year whose update leaves the balance at 0, and no year when no
    update does: its step never overshoots, so the test of line 319 sees
    every payoff. *)
Lemma real_estate_payoff_year_first
    (portfolio_return property_price down_payment monthly_budget
     interest_rate appreciation_rate : Q) (amort_years : Z)
    (continue_amortization : bool) (min_amort_per_year : Q) (n : nat) :
  let run :=
    real_estate_run portfolio_return property_price down_payment
      monthly_budget interest_rate appreciation_rate amort_years
      continue_amortization min_amort_per_year in
  ~ property_price - down_payment == 0 ->
  match re_payoff_year (run n) with
  | None => forall k, (k <= n)%nat -> ~ re_balance (run k) == 0
  | Some y =>
      (1 <= y <= n)%nat
      /\ re_balance (run y) == 0
      /\ forall k, (k < y)%nat -> ~ re_balance (run k) == 0
  end.
Proof.
  intros run Hloan. induction n as [|n IH].
  - cbn. intros k Hk. replace k with 0%nat by lia. exact Hloan.
  - assert (Hstep : run (S n)
                    = real_estate_year portfolio_return monthly_budget
                        interest_rate appreciation_rate amort_years
                        continue_amortization min_amort_per_year (run n) n)
      by (unfold run, real_estate_run; apply for_range_S).
    destruct (real_estate_year_cases portfolio_return monthly_budget
                interest_rate appreciation_rate amort_years
                continue_amortization min_amort_per_year (run n) n)
      as [(Hz & _ & _ & Hp) | [(_ & _ & _ & Hb & Hp) | (Hz & _ & Hb & _ & Hp)]];
      rewrite <- Hstep in *; rewrite Hp; clear Hp.
    + apply eqb_true in Hz.
      destruct (re_payoff_year (run n)) as [y|].
      * destruct IH as (Hy & H0 & Hk). repeat split; try assumption; lia.
      * exfalso. apply (IH n); [lia | exact Hz].
    + destruct (re_payoff_year (run n)) as [y|]; cbn [is_None].
      * rewrite andb_false_r.
        destruct IH as (Hy & H0 & Hk). repeat split; try assumption; lia.
      * rewrite andb_true_r.
        destruct (Py.eqb (re_balance (run (S n))) 0) eqn:Ez.
        -- apply eqb_true in Ez. rewrite Nat.add_1_r.
           repeat split; [lia | lia | exact Ez |].
           intros k Hk. apply IH. lia.
        -- apply eqb_false in Ez. intros k Hk.
           destruct (Nat.eq_dec k (S n)) as [-> | Hne]; [exact Ez|].
           apply IH. lia.
    + apply eqb_false in Hz.
      destruct (re_payoff_year (run n)) as [y|].
      * destruct IH as (Hy & H0 & Hk). repeat split; try assumption; lia.
      * intros k Hk.
        destruct (Nat.eq_dec k (S n)) as [-> | Hne].
        -- rewrite Hb. exact Hz.
        -- apply IH. lia.
Qed.

(** The year counter as a rational. *)
Lemma inject_nat_S (n : nat) :
  inject_Z (Z.of_nat (S n)) == inject_Z (Z.of_nat n) + 1.
Proof.
  rewrite Nat2Z.inj_succ. unfold Z.succ.
  rewrite inject_Z_plus. reflexivity.
Qed.

Lemma inject_nat_nonneg (n : nat) : 0 <= inject_Z (Z.of_nat n).
Proof.
  change 0 with (inject_Z 0). rewrite <- Zle_Qle. apply Nat2Z.is_nonneg.
Qed.

Section FullAmortization.

Variables (portfolio_return property_price down_payment monthly_budget
           interest_rate appreciation_rate : Q).
Variable amort_years : Z.
Variable min_amort_per_year : Q.

Let loan := property_price - down_payment.
(** The least a year can retire: the budget left after the interest on the
    whole loan. *)
Let least := monthly_budget * 12 - loan * interest_rate.
Let run :=
  real_estate_run portfolio_return property_price down_payment
    monthly_budget interest_rate appreciation_rate amort_years true
    min_amort_per_year.

Hypothesis loan_pos : 0 < loan.
Hypothesis rate_nonneg : 0 <= interest_rate.
Hypothesis least_nonneg : 0 <= least.

(** As long as no payoff year is recorded within the amortization window,
    each year retires at least [least]. *)
Lemma real_estate_run_progress (n : nat) :
  (Z.of_nat n <= amort_years)%Z ->
  re_payoff_year (run n) = None ->
  0 < re_balance (run n)
  /\ re_balance (run n) <= loan - inject_Z (Z.of_nat n) * least.
Proof.
  induction n as [|n IH]; intros Hn Hnone.
  - unfold run, real_estate_run. rewrite for_range_0.
    unfold re_init. cbn [re_balance]. fold loan.
    change (inject_Z (Z.of_nat 0)) with 0.
    split; [exact loan_pos|]. lra.
  - unfold run, real_estate_run in *. rewrite for_range_S in *.
    set (s := Py.for_range n _ _) in *.
    assert (Hprev : re_payoff_year s = None).
    { destruct (re_payoff_year s) as [y|] eqn:Ey; [|reflexivity].
      erewrite real_estate_year_keeps_payoff in Hnone by exact Ey.
      discriminate Hnone. }
    destruct (IH ltac:(lia) Hprev) as [Hpos Hle].
    pose proof (inject_nat_nonneg n) as Hn0.
    assert (Hmul : 0 <= inject_Z (Z.of_nat n) * least)
      by (apply Qmult_le_0_compat; assumption).
    assert (Hint : re_balance s * interest_rate <= loan * interest_rate)
      by (apply Qmult_le_compat_r; [lra | exact rate_nonneg]).
    rewrite inject_nat_S.
    destruct (real_estate_year_cases portfolio_return monthly_budget
                interest_rate appreciation_rate amort_years true
                min_amort_per_year s n)
      as [(Hz & _) | [(Hz & _ & Ha & Hb & Hp) | (_ & Hc & _)]].
    + apply eqb_true in Hz. lra.
    + rewrite Hp, Hprev in Hnone. cbn [is_None] in Hnone.
      rewrite andb_true_r in Hnone.
      destruct (Py.eqb _ 0) eqn:Ez in Hnone; [discriminate Hnone|].
      apply eqb_false in Ez.
      rewrite Hb, Ha in *.
      destruct (min_cases (re_balance s)
                  (Py.max min_amort_per_year
                     (monthly_budget * 12 - re_balance s * interest_rate)))
        as [[Hlt Hm] | [Hge Hm]]; rewrite Hm in *.
      * destruct (max_cases min_amort_per_year
                    (monthly_budget * 12 - re_balance s * interest_rate))
          as [[_ Hx] | [Hy Hx]]; rewrite Hx in *; unfold least in *;
          split; lra.
      * exfalso. apply Ez. ring.
    + cbn in Hc. apply orb_false_elim in Hc. destruct Hc as [_ Hc].
      apply Z.ltb_ge in Hc. lia.
Qed.

End FullAmortization.




(** ** The hybrid simulator, year by year *)

Section HybridYear.

Variables (monthly_budget interest_rate appreciation_rate
           portfolio_return : Q).
Variable amort_years : Z.
Variable min_amort_per_year : Q.

Let year_body :=
  hybrid_year monthly_budget interest_rate appreciation_rate
    portfolio_return amort_years min_amort_per_year.

(** The test of line 365. *)
Let amortizing (s : hy_state) (year : nat) : bool :=
  Py.gtb (ltv_current (hy_balance s)
            (hy_property_value s * (1 + appreciation_rate))) 0.667
  && (Z.of_nat year <? amort_years)%Z.

Lemma hybrid_year_cases (s : hy_state) (year : nat) :
  let s' := year_body s year in
  let b := hy_balance s in
  (Py.eqb b 0 = true
   /\ hy_balance s' = Py.max 0 b /\ hy_monthly_min_amort s' = 0
   /\ hy_payoff_year s' = hy_payoff_year s)
  \/ (Py.eqb b 0 = false /\ amortizing s year = true
      /\ hy_balance s' = Py.max 0 (b - min_amort_per_year)
      /\ hy_monthly_min_amort s' = min_amort_per_year / 12
      /\ hy_payoff_year s'
         = if Py.eqb (b - min_amort_per_year) 0
              && is_None (hy_payoff_year s)
           then Some (year + 1)%nat
           else hy_payoff_year s)
  \/ (Py.eqb b 0 = false /\ amortizing s year = false
      /\ hy_balance s' = Py.max 0 b /\ hy_monthly_min_amort s' = 0
      /\ hy_payoff_year s' = hy_payoff_year s).
Proof.
  cbv zeta.
  unfold year_body, hybrid_year, hybrid_branch, amortizing, ltv_current.
  destruct (Py.eqb (hy_balance s) 0) eqn:Eb.
  - left. cbn. auto.
  - match goal with
    | |- context [if (?c && ?d) then _ else _] => destruct (c && d) eqn:Ec
    end.
    + right. left. cbn. auto.
    + right. right. cbn. auto.
Qed.

End HybridYear.

(** A loan-to-value ratio above the target means a positive balance. *)
Lemma ltv_above_target_positive (balance property_value : Q) :
  Py.gtb (ltv_current balance property_value) 0.667 = true -> 0 < balance.
Proof.
  unfold ltv_current. intro H.
  destruct (Py.gtb property_value 0) eqn:Ev.
  - apply gtb_true in Ev. apply gtb_true in H.
    assert (Hq : 0 < balance / property_value) by lra.
    assert (Hb : balance == balance / property_value * property_value)
      by (field; lra).
    rewrite Hb. apply Qmult_lt_0_compat; assumption.
  - apply gtb_true in H. lra.
Qed.

Lemma twelfth_positive (x : Q) : 0 < x / 12 -> 0 < x.
Proof.
  intro H. assert (Hx : x == x / 12 * 12) by field. lra.
Qed.

(** ** Sign and monotonicity of the balance *)

(** C8 as stated fails: with the equity slider above the price slider
    ([property_price = 500000], [down_payment = 2000000]) and
    [continue_amortization = False], the real-estate simulator starts from a
    balance of -1500000, takes the investing branch, and leaves the balance
    negative after the first yearly update (and after every later one). *)
Lemma C8_real_estate_balance_negative :
  exists m : Q,
    min_amort_per_year 500000 2000000 = Some m
    /\ let run :=
         real_estate_run 0.096 500000 2000000 3500 0.015 0.02 15 false m in
       re_balance (run 1%nat) < 0
       /\ re_balance (run 30%nat) < 0.
Proof.
  eexists. split; [reflexivity|]. cbv zeta. split; q_compute.
Qed.

(** C8, amended.  After every yearly update the balance is nonnegative in
    the hybrid simulator for every input, and in the real-estate simulator
    (both modes) for every input whose initial loan is nonnegative; in all
    three, across a year whose amortization is positive the balance does not
    increase. *)
Theorem C8_balance_nonnegative_and_not_increasing
    (property_price down_payment monthly_budget interest_rate
     appreciation_rate portfolio_return : Q) (amort_years : Z)
    (min_amort_per_year : Q) (n : nat) :
  let hy := hybrid_run property_price down_payment monthly_budget
              interest_rate appreciation_rate portfolio_return amort_years
              min_amort_per_year in
  (0 <= hy_balance (hy (S n))
   /\ (0 < hy_monthly_min_amort (hy (S n)) ->
       hy_balance (hy (S n)) <= hy_balance (hy n)))
  /\ forall continue_amortization : bool,
       let re := real_estate_run portfolio_return property_price down_payment
                   monthly_budget interest_rate appreciation_rate amort_years
                   continue_amortization min_amort_per_year in
       (0 <= property_price - down_payment -> 0 <= re_balance (re (S n)))
       /\ (0 < re_amortization (re (S n)) ->
           re_balance (re (S n)) <= re_balance (re n)).
Proof.
  cbv zeta. split.
  - unfold hybrid_run. rewrite for_range_S.
    set (s := Py.for_range n _ _).
    destruct (hybrid_year_cases monthly_budget interest_rate appreciation_rate
                portfolio_return amort_years min_amort_per_year s n)
      as [(_ & Hb & Ha & _) | [(_ & Hc & Hb & Ha & _) | (_ & _ & Hb & Ha & _)]];
      rewrite Hb, Ha.
    + split; [|intro; lra].
      destruct (max_cases 0 (hy_balance s)) as [[? ->] | [? ->]]; lra.
    + apply andb_prop in Hc. destruct Hc as [Hc _].
      apply ltv_above_target_positive in Hc.
      destruct (max_cases 0 (hy_balance s - min_amort_per_year))
        as [[? ->] | [? ->]]; (split; [lra|]); intro Hm;
        apply twelfth_positive in Hm; lra.
    + split; [|intro; lra].
      destruct (max_cases 0 (hy_balance s)) as [[? ->] | [? ->]]; lra.
  - intro continue_amortization. split.
    + intro Hloan. generalize (S n) as k. intro k.
      induction k as [|k IH].
      * exact Hloan.
      * unfold real_estate_run in *. rewrite for_range_S.
        set (s := Py.for_range k _ _) in *.
        destruct (real_estate_year_cases portfolio_return monthly_budget
                    interest_rate appreciation_rate amort_years
                    continue_amortization min_amort_per_year s k)
          as [(_ & Hb & _) | [(_ & _ & Ha & Hb & _) | (_ & _ & Hb & _)]];
          rewrite Hb; [exact IH| |exact IH].
        rewrite Ha.
        destruct (min_cases (re_balance s)
                    (Py.max min_amort_per_year
                       (monthly_budget * 12 - re_balance s * interest_rate)))
          as [[? ->] | [? ->]]; lra.
    + unfold real_estate_run. rewrite for_range_S.
      set (s := Py.for_range n _ _).
      destruct (real_estate_year_cases portfolio_return monthly_budget
                  interest_rate appreciation_rate amort_years
                  continue_amortization min_amort_per_year s n)
        as [(_ & Hb & Ha & _) | [(_ & _ & _ & Hb & _) | (_ & _ & Hb & Ha & _)]];
        rewrite Hb; try rewrite Ha; intro; lra.
Qed.

Lemma C8_balance_nonnegative_and_not_increasing_witness :
  let m := (800000 - 1000000 * 0.667) / 15 in
  let hy := hybrid_run 1000000 200000 3500 0.015 0.02 0.096 15 m in
  let re := real_estate_run 0.096 1000000 200000 3500 0.015 0.02 15 true m in
  (0 < hy_monthly_min_amort (hy 1%nat)
   /\ 0 <= hy_balance (hy 1%nat) <= hy_balance (hy 0%nat))
  /\ (0 <= 1000000 - 200000
      /\ 0 < re_amortization (re 1%nat)
      /\ 0 <= re_balance (re 1%nat) <= re_balance (re 0%nat)).
Proof.
  intros m hy re.
  destruct (C8_balance_nonnegative_and_not_increasing
              1000000 200000 3500 0.015 0.02 0.096 15 m 0)
    as [[Hh0 Hh1] Hre].
  destruct (Hre true) as [Hr0 Hr1].
  assert (Ha : 0 < hy_monthly_min_amort (hy 1%nat)) by (vm_compute; reflexivity).
  assert (Hl : 0 <= 1000000 - 200000) by (vm_compute; discriminate).
  assert (Hb : 0 < re_amortization (re 1%nat)) by (vm_compute; reflexivity).
  split.
  - split; [exact Ha|]. split; [exact Hh0 | exact (Hh1 Ha)].
  - split; [exact Hl|]. split; [exact Hb|].
    split; [exact (Hr0 Hl) | exact (Hr1 Hb)].
Defined.

(** ** Lists built by [append] *)

Lemma first_index_snoc {A : Type} (p : A -> bool) (l : list A) (x : A) :
  first_index p (l ++ [x])
  = match first_index p l with
    | Some i => Some i
    | None => if p x then Some (List.length l) else None
    end.
Proof.
  induction l as [|y l IH]; cbn.
  - destruct (p x); reflexivity.
  - destruct (p y); [reflexivity|].
    rewrite IH. destruct (first_index p l); cbn; [reflexivity|].
    destruct (p x); reflexivity.
Qed.

Lemma first_index_None {A : Type} (p : A -> bool) (l : list A) (d : A) :
  first_index p l = None ->
  forall k, (k < List.length l)%nat -> p (nth k l d) = false.
Proof.
  induction l as [|y l IH]; cbn; intros H k Hk.
  - lia.
  - destruct (p y) eqn:Ey; [discriminate H|].
    destruct (first_index p l); [discriminate H|].
    destruct k as [|k]; [exact Ey|].
    apply IH; [reflexivity | lia].
Qed.

Lemma first_index_Some {A : Type} (p : A -> bool) (l : list A) (d : A)
    (m : nat) :
  first_index p l = Some m ->
  (m < List.length l)%nat
  /\ p (nth m l d) = true
  /\ forall k, (k < m)%nat -> p (nth k l d) = false.
Proof.
  revert m. induction l as [|y l IH]; cbn; intros m H.
  - discriminate H.
  - destruct (p y) eqn:Ey.
    + injection H as <-. repeat split; [lia | exact Ey | intros; lia].
    + destruct (first_index p l) as [i|]; [|discriminate H].
      injection H as <-.
      destruct (IH i eq_refl) as (Hi & Hp & Hk).
      repeat split; [lia | exact Hp |].
      intros [|k] Hlt; [exact Ey|]. apply Hk. lia.
Qed.

Lemma nth_map_seq {A : Type} (f : nat -> A) (n m : nat) (d : A) :
  (m < n)%nat -> nth m (map f (seq 0 n)) d = f m.
Proof.
  intro H.
  rewrite (nth_indep _ d (f 0%nat)) by (rewrite length_map, length_seq; exact H).
  rewrite (map_nth f (seq 0 n) 0%nat m), seq_nth by exact H.
  reflexivity.
Qed.

(** ** The loan-to-value tracker, month by month *)

Section LtvTracker.

Variables (monthly_growth monthly_budget interest_rate
           min_monthly_amort : Q).
Variable strategy : string.
Variable s0 : ltv_state.

Let month_body :=
  ltv_month monthly_growth strategy monthly_budget interest_rate
    min_monthly_amort.
Let run (n : nat) : ltv_state := Py.for_range n month_body s0.

(** The loan-to-value ratio and the amortization month [n] computes. *)
Let month_ltv (n : nat) : Q :=
  ltv_current (lt_balance (run n)) (lt_property_value (run n) * monthly_growth).
Let month_amort (n : nat) : Q :=
  ltv_monthly_amort strategy monthly_budget interest_rate min_monthly_amort
    (lt_balance (run n)) (month_ltv n).

Lemma ltv_month_fields (s : ltv_state) (month : nat) :
  let s' := month_body s month in
  let current_ltv :=
    ltv_current (lt_balance s) (lt_property_value s * monthly_growth) in
  let monthly_amort :=
    ltv_monthly_amort strategy monthly_budget interest_rate
      min_monthly_amort (lt_balance s) current_ltv in
  lt_property_value s' = lt_property_value s * monthly_growth
  /\ lt_balance s' = Py.max 0 (lt_balance s - monthly_amort)
  /\ lt_balance_progression s' = lt_balance_progression s ++ [lt_balance s']
  /\ lt_ltv_progression s' = lt_ltv_progression s ++ [current_ltv]
  /\ lt_amort_progression s' = lt_amort_progression s ++ [monthly_amort]
  /\ (lt_target_reached s', lt_years_to_target s')
     = if Qle_bool current_ltv 0.667 then
         if negb (lt_target_reached s)
         then (true, Some (month / 12 + 1)%nat)
         else (lt_target_reached s, lt_years_to_target s)
       else (lt_target_reached s, lt_years_to_target s).
Proof.
  cbv zeta. unfold month_body, ltv_month.
  destruct (Qle_bool _ 0.667); [destruct (negb (lt_target_reached s))|];
    cbn; repeat split; reflexivity.
Qed.

Lemma ltv_run_property_value (n : nat) :
  lt_property_value (run (S n)) = lt_property_value (run n) * monthly_growth.
Proof.
  unfold run. rewrite for_range_S.
  apply (ltv_month_fields (Py.for_range n month_body s0) n).
Qed.

Lemma ltv_run_balance (n : nat) :
  lt_balance (run (S n)) = Py.max 0 (lt_balance (run n) - month_amort n).
Proof.
  unfold run. rewrite for_range_S.
  apply (ltv_month_fields (Py.for_range n month_body s0) n).
Qed.

(** The three series record, month after month, the ratio the month
    computed, the balance it left and the amortization it chose. *)
Lemma ltv_run_progressions (n : nat) :
  lt_ltv_progression (run n)
  = lt_ltv_progression s0 ++ map month_ltv (seq 0 n)
  /\ lt_balance_progression (run n)
     = lt_balance_progression s0
       ++ map (fun m => lt_balance (run (S m))) (seq 0 n)
  /\ lt_amort_progression (run n)
     = lt_amort_progression s0 ++ map month_amort (seq 0 n).
Proof.
  induction n as [|n (IHl & IHb & IHa)].
  - cbn. rewrite !app_nil_r. auto.
  - assert (Hstep : run (S n) = month_body (run n) n)
      by (unfold run; apply for_range_S).
    destruct (ltv_month_fields (run n) n) as (_ & _ & Hb & Hl & Ha & _).
    rewrite <- Hstep in Hb, Hl, Ha.
    rewrite !seq_S, !map_app, !app_assoc. cbn [map Nat.add].
    rewrite <- IHl, <- IHb, <- IHa.
    repeat split; assumption.
Qed.

(** The bookkeeping of lines 599-602 finds the first month whose ratio is
    at or below the target. *)
Lemma ltv_run_target (n : nat) :
  lt_target_reached s0 = false ->
  lt_years_to_target s0 = None ->
  let first :=
    first_index (fun l => Qle_bool l 0.667) (map month_ltv (seq 0 n)) in
  lt_target_reached (run n) = negb (is_None first)
  /\ lt_years_to_target (run n)
     = option_map (fun m => (m / 12 + 1)%nat) first.
Proof.
  intros Hr Hy. cbv zeta. induction n as [|n [IHr IHy]].
  - cbn. auto.
  - rewrite seq_S, map_app. cbn [map Nat.add].
    rewrite first_index_snoc, length_map, length_seq.
    destruct (ltv_month_fields (run n) n) as (_ & _ & _ & _ & _ & Hp).
    fold (month_ltv n) in Hp.
    assert (Hstep : run (S n) = month_body (run n) n)
      by (unfold run; apply for_range_S).
    rewrite <- Hstep in Hp.
    rewrite IHr, IHy in Hp.
    destruct (first_index _ (map month_ltv (seq 0 n))) as [i|];
      cbn [is_None negb option_map] in Hp |- *.
    + destruct (Qle_bool (month_ltv n) 0.667);
        injection Hp as -> ->; auto.
    + destruct (Qle_bool (month_ltv n) 0.667);
        injection Hp as -> ->; auto.
Qed.

(** A positive amortization is only ever chosen on a positive balance. *)
Lemma ltv_monthly_amort_positive (balance property_value : Q) :
  0 < ltv_monthly_amort strategy monthly_budget interest_rate
        min_monthly_amort balance (ltv_current balance property_value) ->
  0 < balance.
Proof.
  unfold ltv_monthly_amort.
  set (x := Py.max min_monthly_amort
              (monthly_budget - balance * interest_rate / 12)).
  assert (Hmin : 0 < Py.min balance x -> 0 < balance).
  { destruct (min_cases balance x) as [[? ->] | [? ->]]; intro; lra. }
  destruct (Qle_bool _ 0.667) eqn:El.
  - destruct (String.eqb strategy "pure_max"); [exact Hmin | intro; lra].
  - destruct (String.eqb strategy "hybrid"); [|exact Hmin].
    intros _. apply leb_false in El.
    apply (ltv_above_target_positive balance property_value).
    apply gtb_true. exact El.
Qed.

End LtvTracker.

(** C7.  For every input, the tracker records the 360 monthly ratios it
    computed (balance at the start of the month over the property value after
    the month's growth, 0 when that value is not positive), and its
    years-to-target is [None] when every recorded ratio exceeds 0.667, and
    [m / 12 + 1] for the first month [m] (counted from 0) whose ratio is at
    most 0.667 otherwise. *)
Theorem C7_years_to_target (pow_twelfth : Q -> Q)
    (real_estate_growth property_price down_payment monthly_budget
     interest_rate : Q) (strategy : string) :
  let result :=
    calculate_ltv_progression pow_twelfth real_estate_growth property_price
      down_payment monthly_budget interest_rate strategy in
  let years_to_target := fst (fst (fst result)) in
  let ltv_progression := snd (fst result) in
  let run :=
    ltv_run pow_twelfth real_estate_growth property_price down_payment
      monthly_budget interest_rate strategy in
  ltv_progression
  = map (fun m => ltv_current (lt_balance (run m))
                    (lt_property_value (run (S m))))
      (seq 0 360)
  /\ ((years_to_target = None
       /\ forall m, (m < 360)%nat -> 0.667 < nth m ltv_progression 0)
      \/ exists m,
           (m < 360)%nat
           /\ nth m ltv_progression 0 <= 0.667
           /\ (forall k, (k < m)%nat -> 0.667 < nth k ltv_progression 0)
           /\ years_to_target = Some (m / 12 + 1)%nat).
Proof.
  cbv zeta. unfold calculate_ltv_progression. cbn [fst snd].
  set (g := pow_twelfth (1 + real_estate_growth)).
  set (mma := ltv_min_monthly_amort property_price down_payment).
  set (s0 := ltv_init property_price down_payment).
  destruct (ltv_run_progressions g monthly_budget interest_rate mma strategy
              s0 360) as (Hl & _ & _).
  destruct (ltv_run_target g monthly_budget interest_rate mma strategy s0 360
              eq_refl eq_refl) as (_ & Hy).
  unfold ltv_run. fold g mma s0.
  cbn [s0 ltv_init lt_ltv_progression app] in Hl.
  rewrite Hl, Hy.
  set (ltvs := map _ (seq 0 360)).
  assert (Hlen : List.length ltvs = 360%nat)
    by (unfold ltvs; rewrite length_map, length_seq; reflexivity).
  split.
  - unfold ltvs. apply map_ext_in. intros m _.
    rewrite (ltv_run_property_value g monthly_budget interest_rate mma
               strategy s0 m).
    reflexivity.
  - destruct (first_index (fun l => Qle_bool l 0.667) ltvs) as [m|] eqn:Ef.
    + right. exists m.
      destruct (first_index_Some _ _ 0 _ Ef) as (Hm & Hp & Hk).
      rewrite Hlen in Hm.
      split; [exact Hm|]. split; [apply Qle_bool_iff; exact Hp|].
      split; [|reflexivity].
      intros k Hlt. apply leb_false. apply Hk. exact Hlt.
    + left. split; [reflexivity|].
      intros m Hm. apply leb_false.
      apply (first_index_None _ _ 0 Ef). rewrite Hlen. exact Hm.
Qed.

(** C9, amended.  For every input, the tracker's required loan reduction is
    [loan - property_price * 0.667] and its minimum monthly amortization is
    that reduction divided by [15 * 12], with no floor at 0: it is negative
    only when the reduction is, and never positive when the reduction is
    negative.  Whenever it is negative, under the [pure_max] strategy every
    month whose interest ([balance * interest_rate / 12], line 594) exceeds
    the monthly budget records a negative amortization and leaves a balance
    not below the one it started with.  (Over the rationals a negative
    reduction gives a negative minimum and the balance rises; in binary64 a
    quotient can underflow to -0.0 and a rise below the rounding unit of the
    balance is absorbed.) *)
Theorem C9_negative_minimum_never_lowers_balance (pow_twelfth : Q -> Q)
    (real_estate_growth property_price down_payment monthly_budget
     interest_rate : Q) :
  let loan := property_price - down_payment in
  let min_monthly_amort :=
    ltv_min_monthly_amort property_price down_payment in
  let run :=
    ltv_run pow_twelfth real_estate_growth property_price down_payment
      monthly_budget interest_rate "pure_max" in
  (forall strategy,
     let debug :=
       snd (calculate_ltv_progression pow_twelfth real_estate_growth
              property_price down_payment monthly_budget interest_rate
              strategy) in
     dbg_required_loan_reduction debug = loan - property_price * 0.667
     /\ dbg_min_monthly_amort debug
        = dbg_required_loan_reduction debug / (15 * 12)
     /\ dbg_min_monthly_amort debug = min_monthly_amort
     /\ (dbg_min_monthly_amort debug < 0 ->
         dbg_required_loan_reduction debug < 0)
     /\ (dbg_required_loan_reduction debug < 0 ->
         dbg_min_monthly_amort debug <= 0))
  /\ (min_monthly_amort < 0 ->
      forall m,
        (m < 360)%nat ->
        monthly_budget < lt_balance (run m) * interest_rate / 12 ->
        nth m (lt_amort_progression (run 360%nat)) 0 < 0
        /\ nth m (lt_balance_progression (run 360%nat)) 0
           = lt_balance (run (S m))
        /\ lt_balance (run m) <= lt_balance (run (S m))).
Proof.
  cbv zeta. split.
  - intro strategy. cbn [calculate_ltv_progression snd
                         dbg_required_loan_reduction dbg_min_monthly_amort].
    unfold ltv_min_monthly_amort.
    set (r := property_price - down_payment - property_price * 0.667).
    assert (Hr : r == r / (15 * 12) * (15 * 12)) by (field; discriminate).
    split; [reflexivity|]. split; [reflexivity|]. split; [reflexivity|].
    split.
    + intro Hneg.
      assert (H : r / (15 * 12) * (15 * 12) < 0 * (15 * 12))
        by (apply Qmult_lt_compat_r; [reflexivity | exact Hneg]).
      lra.
    + intro Hneg. apply Qlt_le_weak.
      apply Qlt_shift_div_r; [reflexivity|]. lra.
  - intro Hneg.
    intros m Hm Hbudget.
    set (g := pow_twelfth (1 + real_estate_growth)).
    set (mma := ltv_min_monthly_amort property_price down_payment) in *.
    set (s0 := ltv_init property_price down_payment).
    destruct (ltv_run_progressions g monthly_budget interest_rate mma
                "pure_max" s0 360) as (_ & Hb & Ha).
    unfold ltv_run. fold g mma s0.
    cbn [s0 ltv_init lt_balance_progression lt_amort_progression app]
      in Hb, Ha.
    rewrite Hb, Ha, !nth_map_seq by exact Hm.
    rewrite (ltv_run_balance g monthly_budget interest_rate mma "pure_max"
               s0 m).
    unfold ltv_run in Hbudget. fold g mma s0 in Hbudget.
    set (b := lt_balance (Py.for_range m _ s0)) in *.
    set (a := ltv_monthly_amort _ _ _ _ _ _).
    assert (Hamort : a < 0).
    { unfold a, ltv_monthly_amort. cbn [String.eqb Ascii.eqb Bool.eqb].
      set (x := Py.max mma (monthly_budget - b * interest_rate / 12)).
      assert (Hx : x < 0)
        by (unfold x;
            destruct (max_cases mma (monthly_budget - b * interest_rate / 12))
              as [[? ->] | [? ->]]; lra).
      assert (Hmin : Py.min b x < 0)
        by (destruct (min_cases b x) as [[? ->] | [? ->]]; lra).
      destruct (Qle_bool _ 0.667); exact Hmin. }
    split; [exact Hamort|]. split; [reflexivity|].
    destruct (max_cases 0 (b - a)) as [[? ->] | [? ->]]; lra.
Qed.

Lemma C9_negative_minimum_never_lowers_balance_witness :
  let run := ltv_run (fun x => x) 0 1000000 400000 1000 0.06 "pure_max" in
  ltv_min_monthly_amort 1000000 400000 < 0
  /\ 1000 < lt_balance (run 0%nat) * 0.06 / 12
  /\ nth 0 (lt_amort_progression (run 360%nat)) 0 < 0
  /\ lt_balance (run 0%nat) <= lt_balance (run 1%nat).
Proof.
  intro run.
  assert (Hneg : ltv_min_monthly_amort 1000000 400000 < 0) by reflexivity.
  assert (Hbudget : 1000 < lt_balance (run 0%nat) * 0.06 / 12) by reflexivity.
  destruct (C9_negative_minimum_never_lowers_balance (fun x => x) 0 1000000
              400000 1000 0.06) as [_ H].
  destruct (H Hneg 0%nat ltac:(lia) Hbudget) as (Ha & _ & Hb).
  split; [exact Hneg|]. split; [exact Hbudget|].
  split; [exact Ha | exact Hb].
Defined.

(** C10, amended.  For every input, strategy and month [m], the ratio
    recorded for the month is computed from the balance the month starts
    with (before its amortization) and the property value after the month's
    growth: their quotient when that value is positive, 0 otherwise; the
    balance recorded for the month is the one left after the amortization.
    So whenever the property value and the month's amortization are
    positive, the recorded ratio is at least the recorded balance over the
    same property value.  (Over the rationals it is strictly above; in
    binary64 an amortization below the rounding unit of the balance is
    absorbed and the two are equal.) *)
Theorem C10_recorded_ltv_precedes_amortization (pow_twelfth : Q -> Q)
    (real_estate_growth property_price down_payment monthly_budget
     interest_rate : Q) (strategy : string) (m : nat) :
  (m < 360)%nat ->
  let run :=
    ltv_run pow_twelfth real_estate_growth property_price down_payment
      monthly_budget interest_rate strategy in
  let result :=
    calculate_ltv_progression pow_twelfth real_estate_growth property_price
      down_payment monthly_budget interest_rate strategy in
  let balance_progression := snd (fst (fst result)) in
  let ltv_progression := snd (fst result) in
  let amortization := nth m (lt_amort_progression (run 360%nat)) 0 in
  let balance_before := lt_balance (run m) in
  let property_value := lt_property_value (run (S m)) in
  property_value
  = lt_property_value (run m) * pow_twelfth (1 + real_estate_growth)
  /\ (0 < property_value ->
      nth m ltv_progression 0 = balance_before / property_value)
  /\ (property_value <= 0 -> nth m ltv_progression 0 = 0)
  /\ nth m balance_progression 0 = Py.max 0 (balance_before - amortization)
  /\ (0 < property_value ->
      0 < amortization ->
      nth m balance_progression 0 / property_value
      <= nth m ltv_progression 0).
Proof.
  intros Hm. cbv zeta.
  unfold calculate_ltv_progression. cbn [fst snd].
  unfold ltv_run in *.
  set (g := pow_twelfth (1 + real_estate_growth)) in *.
  set (mma := ltv_min_monthly_amort property_price down_payment) in *.
  set (s0 := ltv_init property_price down_payment) in *.
  destruct (ltv_run_progressions g monthly_budget interest_rate mma
              strategy s0 360) as (Hl & Hb & Ha).
  cbn [s0 ltv_init lt_ltv_progression lt_balance_progression
       lt_amort_progression app] in Hl, Hb, Ha.
  rewrite Hl, Hb, Ha, !nth_map_seq by exact Hm.
  rewrite (ltv_run_balance g monthly_budget interest_rate mma strategy s0 m).
  rewrite (ltv_run_property_value g monthly_budget interest_rate mma strategy
             s0 m).
  set (b := lt_balance (Py.for_range m _ s0)) in *.
  set (pv := lt_property_value (Py.for_range m _ s0) * g) in *.
  assert (Hpos : 0 < pv -> ltv_current b pv = b / pv).
  { intro Hpv. unfold ltv_current.
    destruct (Py.gtb pv 0) eqn:E; [reflexivity|].
    apply gtb_false in E. lra. }
  assert (Hnon : pv <= 0 -> ltv_current b pv = 0).
  { intro Hpv. unfold ltv_current.
    destruct (Py.gtb pv 0) eqn:E; [|reflexivity].
    apply gtb_true in E. lra. }
  split; [reflexivity|]. split; [exact Hpos|]. split; [exact Hnon|].
  split; [reflexivity|].
  intros Hpv Hamort.
  pose proof (ltv_monthly_amort_positive monthly_budget interest_rate mma
                strategy b pv Hamort) as Hb0.
  set (a := ltv_monthly_amort _ _ _ _ _ _) in *.
  rewrite (Hpos Hpv).
  assert (Hafter : Py.max 0 (b - a) <= b)
    by (destruct (max_cases 0 (b - a)) as [[? ->] | [? ->]]; lra).
  unfold Qdiv. apply Qmult_le_compat_r; [exact Hafter|].
  apply Qlt_le_weak, Qinv_lt_0_compat. exact Hpv.
Qed.

Lemma C10_recorded_ltv_precedes_amortization_witness :
  0 < lt_property_value
        (ltv_run (fun x => x) 0 1000000 200000 3500 0.015 "hybrid" 1)
  /\ 0 < nth 0
           (lt_amort_progression
              (ltv_run (fun x => x) 0 1000000 200000 3500 0.015 "hybrid"
                 360)) 0
  /\ nth 0
       (snd (fst (fst (calculate_ltv_progression (fun x => x) 0 1000000
                         200000 3500 0.015 "hybrid")))) 0
     / lt_property_value
         (ltv_run (fun x => x) 0 1000000 200000 3500 0.015 "hybrid" 1)
     <= nth 0
          (snd (fst (calculate_ltv_progression (fun x => x) 0 1000000 200000
                       3500 0.015 "hybrid"))) 0.
Proof.
  assert (Hm : (0 < 360)%nat) by lia.
  destruct (C10_recorded_ltv_precedes_amortization (fun x => x) 0 1000000
              200000 3500 0.015 "hybrid" 0 Hm)
    as (_ & _ & _ & _ & Hle).
  assert (Hv : 0 < lt_property_value
                     (ltv_run (fun x => x) 0 1000000 200000 3500 0.015
                        "hybrid" 1))
    by (vm_compute; reflexivity).
  assert (Ha : 0 < nth 0
                     (lt_amort_progression
                        (ltv_run (fun x => x) 0 1000000 200000 3500 0.015
                           "hybrid" 360)) 0).
  { unfold ltv_run.
    destruct (ltv_run_progressions ((fun x : Q => x) (1 + 0)) 3500 0.015
                (ltv_min_monthly_amort 1000000 200000) "hybrid"
                (ltv_init 1000000 200000) 360) as (_ & _ & Hseries).
    rewrite Hseries. cbn [ltv_init lt_amort_progression app].
    rewrite nth_map_seq by exact Hm. vm_compute. reflexivity. }
  split; [exact Hv|]. split; [exact Ha | exact (Hle Hv Ha)].
Defined.

(** * Further properties of the core *)

(** ** The amortization rule and the payment calculator *)

Lemma min_amort_of_quotient_bounds (property_price down_payment : Q) :
  0 < property_price ->
  let loan := property_price - down_payment in
  let m := min_amort_of_quotient property_price loan
             (down_payment / property_price) in
  0 <= m
  /\ (0 < m <-> 0.667 * property_price < loan)
  /\ loan - 15 * m == Qmin loan (0.667 * property_price).
Proof.
  intros Hp loan.
  assert (Hnz : ~ property_price == 0) by lra.
  cbv zeta. unfold min_amort_of_quotient.
  assert (Hq : loan == loan / property_price * property_price)
    by (field; exact Hnz).
  destruct (Py.gtb (1 - down_payment / property_price) 0.667) eqn:E.
  - apply (ltv_above_iff _ _ Hp) in E. fold loan in E.
    assert (Hgt : 0.667 * property_price < loan).
    { rewrite Hq. apply Qmult_lt_compat_r; assumption. }
    assert (Hm : 0 < (loan - property_price * 0.667) / 15)
      by (apply Qlt_shift_div_l; [reflexivity | lra]).
    split; [lra|]. split; [split; intro; assumption|].
    rewrite Q.min_r by lra. field.
  - apply gtb_false in E. rewrite quotient_ltv in E by exact Hnz.
    fold loan in E.
    assert (Hle : loan <= 0.667 * property_price).
    { rewrite Hq. apply Qmult_le_compat_r; [exact E | lra]. }
    split; [lra|]. split; [split; intro; lra|].
    rewrite Q.min_l by exact Hle. ring.
Qed.

(** X2.  The sidebar warning of line 205 is shown exactly when the payment
    calculator, in either mode, reports an insufficient budget. *)
Theorem budget_warning_iff_insufficient
    (flat_price equity monthly_cap interest_rate : Q) (amort_years : Z)
    (is_hybrid : bool) :
  ~ flat_price == 0 ->
  exists (warning : bool) (p : payments),
    budget_warning flat_price equity interest_rate monthly_cap = Some warning
    /\ calculate_monthly_payments flat_price equity monthly_cap interest_rate
         amort_years is_hybrid = Some p
    /\ warning = negb (Is_Sufficient p).
Proof.
  intro Hnz.
  unfold budget_warning, calculate_minimum_payments,
    calculate_monthly_payments.
  rewrite (div_Some _ _ Hnz). cbn [Py.bind mp_total_min_payment].
  set (loan := flat_price - equity).
  set (above := Py.gtb (1 - equity / flat_price) 0.667).
  set (mi := loan * interest_rate / 12).
  match goal with
  | |- context [let '(a, b) := ?e in _] => destruct e
  end.
  eexists. eexists. split; [reflexivity|]. split; [reflexivity|].
  cbn [Is_Sufficient]. unfold Py.ltb, Py.geb. f_equal.
  apply Qleb_comp; [|reflexivity].
  destruct above; [reflexivity | field].
Qed.

Lemma budget_warning_iff_insufficient_witness :
  budget_warning 1000000 200000 0.015 1500 = Some true
  /\ exists p : payments,
       calculate_monthly_payments 1000000 200000 1500 0.015 15 true = Some p
       /\ Is_Sufficient p = false.
Proof.
  destruct (budget_warning_iff_insufficient 1000000 200000 1500 0.015 15 true)
    as (w & p & Hw & Hp & Heq); [discriminate|].
  assert (Hwarn : budget_warning 1000000 200000 0.015 1500 = Some true)
    by (vm_compute; reflexivity).
  split; [exact Hwarn|].
  exists p. split; [exact Hp|].
  rewrite Hwarn in Hw. injection Hw as <-.
  destruct (Is_Sufficient p); [discriminate Heq | reflexivity].
Defined.

(** ** The annual simulators: series, property value, investment account *)

Lemma Qpower_nat_succ (q : Q) (n : nat) :
  q ^ Z.of_nat (S n) == q * q ^ Z.of_nat n.
Proof.
  rewrite Nat2Z.inj_succ. unfold Z.succ.
  rewrite Qpower_plus' by lia. change (q ^ 1) with q. ring.
Qed.

Lemma real_estate_year_series (portfolio_return monthly_budget interest_rate
    appreciation_rate : Q) (amort_years : Z) (continue_amortization : bool)
    (min_amort_per_year : Q) (s : re_state) (year : nat) :
  let s' := real_estate_year portfolio_return monthly_budget interest_rate
              appreciation_rate amort_years continue_amortization
              min_amort_per_year s year in
  re_property_value s' = re_property_value s * (1 + appreciation_rate)
  /\ re_net_worth s'
     = re_net_worth s
       ++ [re_property_value s' - re_balance s' + re_investment_value s'].
Proof.
  cbv zeta. unfold real_estate_year.
  destruct (Py.eqb (re_balance s) 0); [cbn; auto|].
  match goal with
  | |- context [if (?c || ?d) then _ else _] => destruct (c || d)
  end; cbn; auto.
Qed.

Lemma hybrid_year_series (monthly_budget interest_rate appreciation_rate
    portfolio_return : Q) (amort_years : Z) (min_amort_per_year : Q)
    (s : hy_state) (year : nat) :
  let s' := hybrid_year monthly_budget interest_rate appreciation_rate
              portfolio_return amort_years min_amort_per_year s year in
  hy_property_value s' = hy_property_value s * (1 + appreciation_rate)
  /\ hy_net_worth s'
     = hy_net_worth s
       ++ [hy_property_value s' - hy_balance s' + hy_investment_value s'].
Proof.
  cbv zeta. unfold hybrid_year, hybrid_branch.
  destruct (Py.eqb (hy_balance s) 0); [cbn; auto|].
  match goal with
  | |- context [if (?c && ?d) then _ else _] => destruct (c && d)
  end; cbn; auto.
Qed.



(** ** The annual simulators on a regular mortgage *)

Lemma ltv_above_target_bound (balance property_value : Q) :
  0 < property_value ->
  Py.gtb (ltv_current balance property_value) 0.667 = true
  <-> 0.667 * property_value < balance.
Proof.
  intro Hv. unfold ltv_current.
  assert (Hg : Py.gtb property_value 0 = true) by (apply gtb_true; exact Hv).
  rewrite Hg, gtb_true.
  assert (Hb : balance == balance / property_value * property_value)
    by (field; lra).
  split; intro H.
  - rewrite Hb. apply Qmult_lt_compat_r; assumption.
  - apply Qlt_shift_div_l; assumption.
Qed.

Lemma appreciation_keeps_value (price value appreciation_rate : Q) :
  0 < price -> price <= value -> 0 <= appreciation_rate ->
  price <= value * (1 + appreciation_rate).
Proof.
  intros Hp Hv Ha.
  assert (H : 0 <= value * appreciation_rate)
    by (apply Qmult_le_0_compat; lra).
  lra.
Qed.

Section RegularMortgage.

Variables (property_price down_payment monthly_budget interest_rate
           appreciation_rate portfolio_return : Q).
Variable amort_years : Z.

Let loan := property_price - down_payment.
Let m := min_amort_of_quotient property_price loan
           (down_payment / property_price).
Let hy :=
  hybrid_run property_price down_payment monthly_budget interest_rate
    appreciation_rate portfolio_return amort_years m.

Hypothesis price_pos : 0 < property_price.
Hypothesis down_nonneg : 0 <= down_payment.
Hypothesis loan_pos : 0 < loan.
Hypothesis appreciation_nonneg : 0 <= appreciation_rate.

(** The required yearly amortization is a small fraction of the price. *)
Lemma min_amort_small : 0 <= m /\ 15 * m <= 0.333 * property_price.
Proof.
  destruct (min_amort_of_quotient_bounds property_price down_payment
              price_pos) as (H0 & _ & H15).
  fold loan in H0, H15. fold m in H0, H15.
  split; [exact H0|].
  destruct (Q.min_spec loan (0.667 * property_price)) as [[_ Hm] | [_ Hm]];
    rewrite Hm in H15; unfold loan in *; lra.
Qed.

(** The hybrid balance stays positive, so neither the floor of line 379 nor
    the payoff test of line 372 ever fires. *)
Lemma hybrid_run_regular (n : nat) :
  0 < hy_balance (hy n)
  /\ hy_balance (hy n) <= loan
  /\ property_price <= hy_property_value (hy n)
  /\ hy_payoff_year (hy n) = None.
Proof.
  destruct min_amort_small as [Hm0 Hm15].
  induction n as [|n (Hb & Hl & Hv & Hp)].
  - cbn. fold loan. repeat split; [exact loan_pos | lra | lra].
  - assert (Hstep : hy (S n)
                    = hybrid_year monthly_budget interest_rate
                        appreciation_rate portfolio_return amort_years m
                        (hy n) n)
      by (unfold hy, hybrid_run; apply for_range_S).
    pose proof (appreciation_keeps_value _ _ _ price_pos Hv
                  appreciation_nonneg) as Hv'.
    destruct (hybrid_year_series monthly_budget interest_rate
                appreciation_rate portfolio_return amort_years m (hy n) n)
      as [Hpv _].
    destruct (hybrid_year_cases monthly_budget interest_rate
                appreciation_rate portfolio_return amort_years m (hy n) n)
      as [(Hz & _) | [(_ & Hc & Hbal & _ & Hpay) | (_ & _ & Hbal & _ & Hpay)]];
      rewrite <- Hstep in *.
    + apply eqb_true in Hz. lra.
    + apply andb_prop in Hc. destruct Hc as [Hc _].
      apply ltv_above_target_bound in Hc; [|lra].
      assert (Hpos : 0 < hy_balance (hy n) - m) by lra.
      rewrite Hbal, Hpay, Hpv, Hp.
      destruct (max_cases 0 (hy_balance (hy n) - m)) as [[_ ->] | [? _]];
        [|lra].
      assert (Ez : Py.eqb (hy_balance (hy n) - m) 0 = false)
        by (apply eqb_false; lra).
      rewrite Ez. cbn [andb].
      repeat split; [exact Hpos | lra | exact Hv'].
    + rewrite Hbal, Hpay, Hpv.
      destruct (max_cases 0 (hy_balance (hy n))) as [[_ ->] | [? _]]; [|lra].
      repeat split; [exact Hb | exact Hl | exact Hv' | exact Hp].
Qed.

End RegularMortgage.

(** X7.  On a regular mortgage (positive price, down payment between 0 and the
    price, excluded, no depreciation) the hybrid simulator never pays the
    loan off: the balance stays positive through every year and the payoff
    year it returns is [None], whatever the budget and the amortization
    window. *)
Theorem hybrid_never_pays_off
    (property_price down_payment monthly_budget interest_rate
     appreciation_rate portfolio_return : Q) (amort_years : Z) :
  0 < property_price ->
  0 <= down_payment ->
  down_payment < property_price ->
  0 <= appreciation_rate ->
  exists (m : Q) (net_worth : list Q),
    min_amort_per_year property_price down_payment = Some m
    /\ simulate_hybrid_strategy property_price down_payment monthly_budget
         interest_rate appreciation_rate portfolio_return amort_years
       = Some (net_worth, None)
    /\ forall n : nat,
         0 < hy_balance
               (hybrid_run property_price down_payment monthly_budget
                  interest_rate appreciation_rate portfolio_return
                  amort_years m n).
Proof.
  intros Hp Hd Hlt Ha.
  assert (Hnz : ~ property_price == 0) by lra.
  assert (Hloan : 0 < property_price - down_payment) by lra.
  unfold simulate_hybrid_strategy.
  rewrite (min_amort_per_year_Some _ _ Hnz), (div_Some _ _ Hnz).
  cbn [Py.bind].
  fold (min_amort_of_quotient property_price (property_price - down_payment)
          (down_payment / property_price)).
  eexists. eexists. split; [reflexivity|]. split.
  - destruct (hybrid_run_regular property_price down_payment monthly_budget
                interest_rate appreciation_rate portfolio_return amort_years
                Hp Hd Hloan Ha 30) as (_ & _ & _ & Hnone).
    rewrite Hnone. reflexivity.
  - intro n.
    apply (hybrid_run_regular property_price down_payment monthly_budget
             interest_rate appreciation_rate portfolio_return amort_years
             Hp Hd Hloan Ha n).
Qed.

Lemma hybrid_never_pays_off_witness :
  exists net_worth : list Q,
    simulate_hybrid_strategy 1000000 200000 3500 0.015 0.02 0.096 15
    = Some (net_worth, None).
Proof.
  destruct (hybrid_never_pays_off 1000000 200000 3500 0.015 0.02 0.096 15)
    as (m & nw & _ & H & _);
    [reflexivity | discriminate | reflexivity | discriminate |].
  exists nw. exact H.
Defined.

Section NonnegativeLoan.

Variables (property_price down_payment monthly_budget interest_rate
           appreciation_rate portfolio_return : Q).
Variable amort_years : Z.
Variable continue_amortization : bool.
Variable m : Q.

Let loan := property_price - down_payment.
Let re :=
  real_estate_run portfolio_return property_price down_payment
    monthly_budget interest_rate appreciation_rate amort_years
    continue_amortization m.
Let hy :=
  hybrid_run property_price down_payment monthly_budget interest_rate
    appreciation_rate portfolio_return amort_years m.

Hypothesis loan_nonneg : 0 <= loan.
Hypothesis min_nonneg : 0 <= m.

Lemma real_estate_run_step (n : nat) :
  0 <= re_balance (re n) ->
  0 <= re_amortization (re (S n))
  /\ 0 <= re_balance (re (S n)) <= re_balance (re n).
Proof.
  intro Hb.
  assert (Hstep : re (S n)
                  = real_estate_year portfolio_return monthly_budget
                      interest_rate appreciation_rate amort_years
                      continue_amortization m (re n) n)
    by (unfold re, real_estate_run; apply for_range_S).
  destruct (real_estate_year_cases portfolio_return monthly_budget
              interest_rate appreciation_rate amort_years
              continue_amortization m (re n) n)
    as [(_ & Hbal & Ha & _) | [(_ & _ & Ha & Hbal & _) | (_ & _ & Hbal & Ha & _)]];
    rewrite <- Hstep in *; rewrite Hbal, Ha; try lra.
  set (avail := monthly_budget * 12 - re_balance (re n) * interest_rate).
  destruct (max_cases m avail) as [[? ->] | [? ->]];
    destruct (min_cases (re_balance (re n)) avail) as [[? Hmin] | [? Hmin]];
    destruct (min_cases (re_balance (re n)) m) as [[? Hmin'] | [? Hmin']];
    rewrite ?Hmin, ?Hmin'; lra.
Qed.

Lemma hybrid_run_step (n : nat) :
  0 <= hy_balance (hy n) ->
  0 <= hy_balance (hy (S n)) <= hy_balance (hy n).
Proof.
  intro Hb.
  assert (Hstep : hy (S n)
                  = hybrid_year monthly_budget interest_rate
                      appreciation_rate portfolio_return amort_years m
                      (hy n) n)
    by (unfold hy, hybrid_run; apply for_range_S).
  destruct (hybrid_year_cases monthly_budget interest_rate appreciation_rate
              portfolio_return amort_years m (hy n) n)
    as [(_ & Hbal & _) | [(_ & _ & Hbal & _) | (_ & _ & Hbal & _)]];
    rewrite <- Hstep in *; rewrite Hbal.
  - destruct (max_cases 0 (hy_balance (hy n))) as [[? ->] | [? ->]]; lra.
  - destruct (max_cases 0 (hy_balance (hy n) - m)) as [[? ->] | [? ->]]; lra.
  - destruct (max_cases 0 (hy_balance (hy n))) as [[? ->] | [? ->]]; lra.
Qed.

Lemma balances_within_loan (n : nat) :
  0 <= re_balance (re n) <= loan /\ 0 <= hy_balance (hy n) <= loan.
Proof.
  induction n as [|n [IHr IHh]].
  - cbn. fold loan. lra.
  - destruct (real_estate_run_step n ltac:(lra)) as [_ Hr].
    pose proof (hybrid_run_step n ltac:(lra)) as Hh.
    lra.
Qed.

End NonnegativeLoan.

(** X8.  For a positive price and a nonnegative loan, no year of either annual
    simulator amortizes a negative amount or raises the balance: in every
    year the balance stays between 0 and the balance of the year before,
    hence between 0 and the initial loan. *)
Theorem balance_never_increases
    (property_price down_payment monthly_budget interest_rate
     appreciation_rate portfolio_return : Q) (amort_years : Z)
    (continue_amortization : bool) (n : nat) :
  0 < property_price ->
  0 <= property_price - down_payment ->
  exists m : Q,
    min_amort_per_year property_price down_payment = Some m
    /\ let re := real_estate_run portfolio_return property_price down_payment
                   monthly_budget interest_rate appreciation_rate amort_years
                   continue_amortization m in
       let hy := hybrid_run property_price down_payment monthly_budget
                   interest_rate appreciation_rate portfolio_return
                   amort_years m in
       0 <= re_amortization (re (S n))
       /\ 0 <= re_balance (re (S n)) <= re_balance (re n)
       /\ re_balance (re n) <= property_price - down_payment
       /\ 0 <= hy_balance (hy (S n)) <= hy_balance (hy n)
       /\ hy_balance (hy n) <= property_price - down_payment.
Proof.
  intros Hp Hloan.
  rewrite min_amort_per_year_Some by lra.
  eexists. split; [reflexivity|]. cbv zeta.
  destruct (min_amort_of_quotient_bounds property_price down_payment Hp)
    as (Hm & _).
  set (m := min_amort_of_quotient _ _ _) in *.
  destruct (balances_within_loan property_price down_payment monthly_budget
              interest_rate appreciation_rate portfolio_return amort_years
              continue_amortization m Hloan Hm n) as [Hr Hh].
  destruct (real_estate_run_step property_price down_payment monthly_budget
              interest_rate appreciation_rate portfolio_return amort_years
              continue_amortization m Hm n ltac:(lra)) as [Ha Hr'].
  pose proof (hybrid_run_step property_price down_payment monthly_budget
                interest_rate appreciation_rate portfolio_return amort_years
                m Hm n ltac:(lra)) as Hh'.
  repeat split; lra.
Qed.

Lemma balance_never_increases_witness :
  exists m : Q,
    min_amort_per_year 1000000 200000 = Some m
    /\ re_balance
         (real_estate_run 0.096 1000000 200000 3500 0.015 0.02 15 true m 30)
       <= 1000000 - 200000.
Proof.
  destruct (balance_never_increases 1000000 200000 3500 0.015 0.02 0.096 15
              true 30) as (m & Hm & _ & _ & H & _);
    [reflexivity | discriminate |].
  exists m. split; [exact Hm | exact H].
Defined.

(** ** The payoff year of the real-estate simulator *)

(** A balance of 0 stays 0. *)
Lemma real_estate_zero_stays
    (portfolio_return property_price down_payment monthly_budget
     interest_rate appreciation_rate : Q) (amort_years : Z)
    (continue_amortization : bool) (min_amort_per_year : Q) (n k : nat) :
  let run :=
    real_estate_run portfolio_return property_price down_payment
      monthly_budget interest_rate appreciation_rate amort_years
      continue_amortization min_amort_per_year in
  re_balance (run n) == 0 -> (n <= k)%nat -> re_balance (run k) == 0.
Proof.
  intros run Hz Hk. induction Hk as [|k Hk IH]; [exact Hz|].
  assert (Hstep : run (S k)
                  = real_estate_year portfolio_return monthly_budget
                      interest_rate appreciation_rate amort_years
                      continue_amortization min_amort_per_year (run k) k)
    by (unfold run, real_estate_run; apply for_range_S).
  apply eqb_true in IH.
  destruct (real_estate_year_cases portfolio_return monthly_budget
              interest_rate appreciation_rate amort_years
              continue_amortization min_amort_per_year (run k) k)
    as [(_ & Hb & _) | [(Hf & _) | (Hf & _)]]; [|congruence|congruence].
  rewrite Hstep, Hb. apply eqb_true. exact IH.
Qed.

(** X9.  Started from a loan that is not 0, the real-estate simulator (either
    mode) returns as payoff year the first year, between 1 and 30, whose
    update leaves the balance at 0, after which the balance stays 0; it
    returns [None] exactly when the balance is nonzero after every one of the
    30 years. *)
Theorem real_estate_payoff_year
    (portfolio_return property_price down_payment monthly_budget
     interest_rate appreciation_rate : Q) (amort_years : Z)
    (continue_amortization : bool) :
  ~ property_price == 0 ->
  ~ property_price - down_payment == 0 ->
  exists (m : Q) (net_worth : list Q) (payoff_year : option nat),
    min_amort_per_year property_price down_payment = Some m
    /\ simulate_real_estate_strategy portfolio_return property_price
         down_payment monthly_budget interest_rate appreciation_rate
         amort_years continue_amortization
       = Some (net_worth, payoff_year)
    /\ let run := real_estate_run portfolio_return property_price
                    down_payment monthly_budget interest_rate
                    appreciation_rate amort_years continue_amortization m in
       match payoff_year with
       | Some y =>
           (1 <= y <= 30)%nat
           /\ (forall k, (k < y)%nat -> ~ re_balance (run k) == 0)
           /\ (forall k, (y <= k)%nat -> re_balance (run k) == 0)
       | None => forall k, (k <= 30)%nat -> ~ re_balance (run k) == 0
       end.
Proof.
  intros Hnz Hloan.
  unfold simulate_real_estate_strategy.
  rewrite (min_amort_per_year_Some _ _ Hnz), (div_Some _ _ Hnz).
  cbn [Py.bind].
  fold (min_amort_of_quotient property_price (property_price - down_payment)
          (down_payment / property_price)).
  set (m := min_amort_of_quotient _ _ _).
  eexists. eexists. eexists.
  split; [reflexivity|]. split; [reflexivity|]. cbv zeta.
  pose proof (real_estate_payoff_year_first portfolio_return property_price
                down_payment monthly_budget interest_rate appreciation_rate
                amort_years continue_amortization m 30 Hloan) as H.
  cbv zeta in H.
  destruct (re_payoff_year _) as [y|]; [|exact H].
  destruct H as (Hy & H0 & Hk).
  split; [exact Hy|]. split; [exact Hk|].
  intros k Hle.
  apply (real_estate_zero_stays portfolio_return property_price down_payment
           monthly_budget interest_rate appreciation_rate amort_years
           continue_amortization m y k H0 Hle).
Qed.

Lemma real_estate_payoff_year_witness :
  exists (net_worth : list Q) (payoff_year : option nat),
    simulate_real_estate_strategy 0.096 1000000 400000 1000 0 0.02 30 true
    = Some (net_worth, payoff_year).
Proof.
  destruct (real_estate_payoff_year 0.096 1000000 400000 1000 0 0.02 30 true)
    as (m & nw & py & _ & H & _); [discriminate | discriminate |].
  exists nw, py. exact H.
Defined.

(** ** Loans that start at or below the target ratio *)

Section LowLoanToValue.

Variables (property_price down_payment monthly_budget interest_rate
           appreciation_rate portfolio_return : Q).
Variable amort_years : Z.
Variable m : Q.

Let loan := property_price - down_payment.
Let re :=
  real_estate_run portfolio_return property_price down_payment
    monthly_budget interest_rate appreciation_rate amort_years false m.
Let hy :=
  hybrid_run property_price down_payment monthly_budget interest_rate
    appreciation_rate portfolio_return amort_years m.

Hypothesis price_pos : 0 < property_price.
Hypothesis loan_pos : 0 < loan.
Hypothesis loan_low : loan / property_price <= 0.667.
Hypothesis appreciation_nonneg : 0 <= appreciation_rate.

Lemma low_ltv_runs (n : nat) :
  re_balance (re n) = loan
  /\ hy_balance (hy n) = loan
  /\ property_price <= re_property_value (re n)
  /\ property_price <= hy_property_value (hy n)
  /\ re_payoff_year (re n) = None
  /\ hy_payoff_year (hy n) = None.
Proof.
  assert (Hlow : loan <= 0.667 * property_price).
  { assert (Hq : loan == loan / property_price * property_price)
      by (field; lra).
    rewrite Hq. apply Qmult_le_compat_r; [exact loan_low | lra]. }
  assert (Hz : Py.eqb loan 0 = false) by (apply eqb_false; lra).
  assert (Hl : forall value, property_price <= value ->
             Py.gtb (ltv_current loan (value * (1 + appreciation_rate)))
               0.667 = false).
  { intros value Hv.
    pose proof (appreciation_keeps_value _ _ _ price_pos Hv
                  appreciation_nonneg) as Hv'.
    destruct (Py.gtb _ 0.667) eqn:E; [|reflexivity].
    apply ltv_above_target_bound in E; [exfalso; lra | lra]. }
  induction n as [|n (Hrb & Hhb & Hrv & Hhv & Hrp & Hhp)].
  - cbn. fold loan. repeat split; try reflexivity; lra.
  - assert (Hre : re (S n)
                  = real_estate_year portfolio_return monthly_budget
                      interest_rate appreciation_rate amort_years false m
                      (re n) n)
      by (unfold re, real_estate_run; apply for_range_S).
    assert (Hhy : hy (S n)
                  = hybrid_year monthly_budget interest_rate
                      appreciation_rate portfolio_return amort_years m
                      (hy n) n)
      by (unfold hy, hybrid_run; apply for_range_S).
    destruct (real_estate_year_series portfolio_return monthly_budget
                interest_rate appreciation_rate amort_years false m (re n) n)
      as [Hrv' _].
    destruct (hybrid_year_series monthly_budget interest_rate
                appreciation_rate portfolio_return amort_years m (hy n) n)
      as [Hhv' _].
    rewrite <- Hre in Hrv'. rewrite <- Hhy in Hhv'.
    destruct (real_estate_year_cases portfolio_return monthly_budget
                interest_rate appreciation_rate amort_years false m (re n) n)
      as [(Hf & _) | [(_ & Hc & _) | (_ & _ & Hb1 & _ & Hp1)]].
    { rewrite Hrb in Hf. congruence. }
    { cbn [andb] in Hc. rewrite orb_false_r, Hrb in Hc.
      rewrite (Hl _ Hrv) in Hc. discriminate Hc. }
    destruct (hybrid_year_cases monthly_budget interest_rate
                appreciation_rate portfolio_return amort_years m (hy n) n)
      as [(Hf & _) | [(_ & Hc & _) | (_ & _ & Hb2 & _ & Hp2)]].
    { rewrite Hhb in Hf. congruence. }
    { apply andb_prop in Hc. destruct Hc as [Hc _].
      rewrite Hhb, (Hl _ Hhv) in Hc. discriminate Hc. }
    rewrite <- Hre in Hb1, Hp1. rewrite <- Hhy in Hb2, Hp2.
    rewrite Hb1, Hb2, Hp1, Hp2, Hrv', Hhv', Hrb, Hhb.
    repeat split; try assumption.
    + destruct (max_cases 0 loan) as [[_ ->] | [? _]]; [reflexivity | lra].
    + apply appreciation_keeps_value; assumption.
    + apply appreciation_keeps_value; assumption.
Qed.

End LowLoanToValue.

Lemma real_estate_run_net_worth
    (portfolio_return property_price down_payment monthly_budget
     interest_rate appreciation_rate : Q) (amort_years : Z)
    (continue_amortization : bool) (m : Q) (n : nat) :
  let re := real_estate_run portfolio_return property_price down_payment
              monthly_budget interest_rate appreciation_rate amort_years
              continue_amortization m in
  re_net_worth (re n)
  = map (fun k => re_property_value (re (S k)) - re_balance (re (S k))
                  + re_investment_value (re (S k))) (seq 0 n).
Proof.
  intro re. induction n as [|n IH]; [reflexivity|].
  assert (Hre : re (S n)
                = real_estate_year portfolio_return monthly_budget
                    interest_rate appreciation_rate amort_years
                    continue_amortization m (re n) n)
    by (unfold re, real_estate_run; apply for_range_S).
  rewrite seq_S, map_app, <- IH. cbn [map Nat.add].
  rewrite Hre at 1.
  destruct (real_estate_year_series portfolio_return monthly_budget
              interest_rate appreciation_rate amort_years
              continue_amortization m (re n) n) as [_ Hs].
  rewrite Hs, <- Hre. reflexivity.
Qed.

Lemma hybrid_run_net_worth
    (property_price down_payment monthly_budget interest_rate
     appreciation_rate portfolio_return : Q) (amort_years : Z) (m : Q)
    (n : nat) :
  let hy := hybrid_run property_price down_payment monthly_budget
              interest_rate appreciation_rate portfolio_return amort_years
              m in
  hy_net_worth (hy n)
  = map (fun k => hy_property_value (hy (S k)) - hy_balance (hy (S k))
                  + hy_investment_value (hy (S k))) (seq 0 n).
Proof.
  intro hy. induction n as [|n IH]; [reflexivity|].
  assert (Hhy : hy (S n)
                = hybrid_year monthly_budget interest_rate appreciation_rate
                    portfolio_return amort_years m (hy n) n)
    by (unfold hy, hybrid_run; apply for_range_S).
  rewrite seq_S, map_app, <- IH. cbn [map Nat.add].
  rewrite Hhy at 1.
  destruct (hybrid_year_series monthly_budget interest_rate appreciation_rate
              portfolio_return amort_years m (hy n) n) as [_ Hs].
  rewrite Hs, <- Hhy. reflexivity.
Qed.

(** X10.  When the loan is positive, the ratio [loan / property_price] is at
    most 0.667 for a positive price, and the property does not depreciate,
    the "later invest" mode of the real-estate simulator and the hybrid
    simulator never amortize: in every year both keep the balance at the
    initial loan, and both return no payoff year. *)
Theorem low_ltv_never_amortizes
    (property_price down_payment monthly_budget interest_rate
     appreciation_rate portfolio_return : Q) (amort_years : Z) :
  0 < property_price ->
  0 < property_price - down_payment ->
  (property_price - down_payment) / property_price <= 0.667 ->
  0 <= appreciation_rate ->
  exists (m : Q) (re_series hy_series : list Q),
    min_amort_per_year property_price down_payment = Some m
    /\ simulate_real_estate_strategy portfolio_return property_price
         down_payment monthly_budget interest_rate appreciation_rate
         amort_years false
       = Some (re_series, None)
    /\ simulate_hybrid_strategy property_price down_payment monthly_budget
         interest_rate appreciation_rate portfolio_return amort_years
       = Some (hy_series, None)
    /\ forall n,
         re_balance
           (real_estate_run portfolio_return property_price down_payment
              monthly_budget interest_rate appreciation_rate amort_years
              false m n)
         = property_price - down_payment
         /\ hy_balance
              (hybrid_run property_price down_payment monthly_budget
                 interest_rate appreciation_rate portfolio_return
                 amort_years m n)
            = property_price - down_payment.
Proof.
  intros Hp Hloan Hlow Ha.
  assert (Hnz : ~ property_price == 0) by lra.
  unfold simulate_real_estate_strategy, simulate_hybrid_strategy.
  rewrite (min_amort_per_year_Some _ _ Hnz), (div_Some _ _ Hnz).
  cbn [Py.bind].
  fold (min_amort_of_quotient property_price (property_price - down_payment)
          (down_payment / property_price)).
  set (m := min_amort_of_quotient _ _ _).
  pose proof (low_ltv_runs property_price down_payment monthly_budget
                interest_rate appreciation_rate portfolio_return amort_years
                m Hp Hloan Hlow Ha) as Hruns.
  destruct (Hruns 30%nat) as (_ & _ & _ & _ & Hrp & Hhp).
  rewrite Hrp, Hhp.
  eexists. eexists. eexists.
  split; [reflexivity|]. split; [reflexivity|]. split; [reflexivity|].
  intro n. destruct (Hruns n) as (Hr & Hh & _). split; assumption.
Qed.

Lemma low_ltv_never_amortizes_witness :
  exists re_series hy_series : list Q,
    simulate_real_estate_strategy 0.096 1000000 400000 3500 0.015 0.02 15 false
    = Some (re_series, None)
    /\ simulate_hybrid_strategy 1000000 400000 3500 0.015 0.02 0.096 15
       = Some (hy_series, None).
Proof.
  destruct (low_ltv_never_amortizes 1000000 400000 3500 0.015 0.02 0.096 15)
    as (m & rs & hs & _ & Hr & Hh & _);
    [reflexivity | reflexivity | discriminate | discriminate |].
  exists rs, hs. split; [exact Hr | exact Hh].
Defined.

(** ** The investment account of the annual simulators *)

Lemma grown_nonneg (value rate : Q) :
  0 <= value -> -1 <= rate -> 0 <= value * (1 + rate).
Proof. intros Hv Hr. apply Qmult_le_0_compat; lra. Qed.

Lemma real_estate_year_investment_nonneg (portfolio_return monthly_budget
    interest_rate appreciation_rate : Q) (amort_years : Z)
    (continue_amortization : bool) (min_amort_per_year : Q)
    (s : re_state) (year : nat) :
  0 <= monthly_budget -> -1 <= portfolio_return ->
  0 <= re_investment_value s ->
  0 <= re_investment_value
         (real_estate_year portfolio_return monthly_budget interest_rate
            appreciation_rate amort_years continue_amortization
            min_amort_per_year s year).
Proof.
  intros Hb Hr Hv.
  pose proof (grown_nonneg _ _ Hv Hr) as Hg.
  unfold real_estate_year.
  destruct (Py.eqb (re_balance s) 0); [cbn; lra|].
  match goal with
  | |- context [if (?c || ?d) then _ else _] => destruct (c || d)
  end; cbn; [exact Hv|].
  match goal with
  | |- context [Py.max 0 ?x] =>
      destruct (max_cases 0 x) as [[? ->] | [? ->]]
  end; lra.
Qed.

Lemma hybrid_year_investment_nonneg (monthly_budget interest_rate
    appreciation_rate portfolio_return : Q) (amort_years : Z)
    (min_amort_per_year : Q) (s : hy_state) (year : nat) :
  0 <= monthly_budget -> -1 <= portfolio_return ->
  0 <= hy_investment_value s ->
  0 <= hy_investment_value
         (hybrid_year monthly_budget interest_rate appreciation_rate
            portfolio_return amort_years min_amort_per_year s year).
Proof.
  intros Hb Hr Hv.
  pose proof (grown_nonneg _ _ Hv Hr) as Hg.
  unfold hybrid_year, hybrid_branch.
  destruct (Py.eqb (hy_balance s) 0).
  - cbn.
    assert (H1 : 0 <= hy_investment_value s * (1 + portfolio_return)
                      + monthly_budget * 12) by lra.
    pose proof (grown_nonneg _ _ H1 Hr). lra.
  - match goal with
    | |- context [if (?c && ?d) then _ else _] => destruct (c && d)
    end; cbn;
      match goal with
      | |- context [Py.max 0 ?x] =>
          destruct (max_cases 0 x) as [[? ->] | [? ->]]
      end; lra.
Qed.

(** X11.  With a nonnegative budget and a portfolio return of at least -100%, the
    investment value of both annual simulators is nonnegative after every
    year, for every other input: unlike the pure-investment strategy, they
    never withdraw. *)
Theorem investment_value_nonnegative
    (property_price down_payment monthly_budget interest_rate
     appreciation_rate portfolio_return : Q) (amort_years : Z)
    (continue_amortization : bool) (m : Q) (n : nat) :
  0 <= monthly_budget ->
  -1 <= portfolio_return ->
  0 <= re_investment_value
         (real_estate_run portfolio_return property_price down_payment
            monthly_budget interest_rate appreciation_rate amort_years
            continue_amortization m n)
  /\ 0 <= hy_investment_value
            (hybrid_run property_price down_payment monthly_budget
               interest_rate appreciation_rate portfolio_return amort_years
               m n).
Proof.
  intros Hb Hr. unfold real_estate_run, hybrid_run.
  induction n as [|n [IHr IHh]].
  - cbn. split; lra.
  - rewrite !for_range_S. split.
    + apply real_estate_year_investment_nonneg; assumption.
    + apply hybrid_year_investment_nonneg; assumption.
Qed.

Lemma investment_value_nonnegative_witness :
  0 <= re_investment_value
         (real_estate_run 0.096 1000000 200000 3500 0.015 0.02 15 true 0 30)
  /\ 0 <= hy_investment_value
            (hybrid_run 1000000 200000 3500 0.015 0.02 0.096 15 0 30).
Proof.
  apply (investment_value_nonnegative 1000000 200000 3500 0.015 0.02 0.096 15
           true 0 30); discriminate.
Defined.

(** ** The tracker's series *)

Lemma last_map_seq {A : Type} (f : nat -> A) (n : nat) (d : A) :
  last (map f (seq 0 (S n))) d = f n.
Proof. rewrite seq_S, map_app. cbn [map Nat.add]. apply last_last. Qed.

Lemma max_zero_nonneg (x : Q) : 0 <= Py.max 0 x.
Proof. destruct (max_cases 0 x) as [[? ->] | [? ->]]; lra. Qed.

(** X12.  For every input and strategy string, the tracker returns 360 balances
    and 360 ratios; no recorded balance is negative; the debug record's final
    balance is the balance after month 360 and its final ratio is the one
    computed in the last month. *)
Theorem ltv_series_shape (pow_twelfth : Q -> Q)
    (real_estate_growth property_price down_payment monthly_budget
     interest_rate : Q) (strategy : string) :
  let result :=
    calculate_ltv_progression pow_twelfth real_estate_growth property_price
      down_payment monthly_budget interest_rate strategy in
  let balance_progression := snd (fst (fst result)) in
  let ltv_progression := snd (fst result) in
  let run :=
    ltv_run pow_twelfth real_estate_growth property_price down_payment
      monthly_budget interest_rate strategy in
  List.length balance_progression = 360%nat
  /\ List.length ltv_progression = 360%nat
  /\ (forall m, 0 <= nth m balance_progression 0)
  /\ dbg_final_balance (snd result) = lt_balance (run 360%nat)
  /\ dbg_final_balance (snd result) = nth 359 balance_progression 0
  /\ dbg_final_ltv (snd result) = nth 359 ltv_progression 0.
Proof.
  cbv zeta. unfold calculate_ltv_progression.
  cbn [fst snd dbg_final_balance dbg_final_ltv].
  unfold ltv_run.
  set (g := pow_twelfth (1 + real_estate_growth)).
  set (mma := ltv_min_monthly_amort property_price down_payment).
  set (s0 := ltv_init property_price down_payment).
  destruct (ltv_run_progressions g monthly_budget interest_rate mma strategy
              s0 360) as (Hl & Hb & _).
  cbn [s0 ltv_init lt_ltv_progression lt_balance_progression app] in Hl, Hb.
  rewrite Hl, Hb, !length_map, !length_seq, !last_map_seq.
  rewrite !nth_map_seq by lia.
  repeat split; try reflexivity.
  intro m.
  destruct (Nat.lt_ge_cases m 360) as [Hm | Hm].
  - rewrite nth_map_seq by exact Hm.
    rewrite (ltv_run_balance g monthly_budget interest_rate mma strategy
               s0 m).
    apply max_zero_nonneg.
  - rewrite nth_overflow by (rewrite length_map, length_seq; exact Hm).
    lra.
Qed.

Lemma ltv_monthly_amort_nonneg (strategy : string)
    (monthly_budget interest_rate min_monthly_amort balance current_ltv : Q) :
  0 <= min_monthly_amort -> 0 <= balance ->
  0 <= ltv_monthly_amort strategy monthly_budget interest_rate
         min_monthly_amort balance current_ltv.
Proof.
  intros Hm Hb. unfold ltv_monthly_amort.
  set (x := Py.max min_monthly_amort
              (monthly_budget - balance * interest_rate / 12)).
  assert (Hx : 0 <= x)
    by (unfold x;
        destruct (max_cases min_monthly_amort
                    (monthly_budget - balance * interest_rate / 12))
          as [[? ->] | [? ->]]; lra).
  assert (Hmin : 0 <= Py.min balance x)
    by (destruct (min_cases balance x) as [[? ->] | [? ->]]; lra).
  destruct (Qle_bool current_ltv 0.667).
  - destruct (String.eqb strategy "pure_max"); [exact Hmin | lra].
  - destruct (String.eqb strategy "hybrid"); [exact Hm | exact Hmin].
Qed.

(** X13.  When the loan is nonnegative and at least 0.667 of the price, so that
    the required reduction is not negative, no month of the tracker raises
    the balance, under any strategy: each month leaves a balance between 0
    and the balance it started with. *)
Theorem ltv_balance_never_increases (pow_twelfth : Q -> Q)
    (real_estate_growth property_price down_payment monthly_budget
     interest_rate : Q) (strategy : string) (n : nat) :
  0 <= property_price - down_payment ->
  0.667 * property_price <= property_price - down_payment ->
  let run :=
    ltv_run pow_twelfth real_estate_growth property_price down_payment
      monthly_budget interest_rate strategy in
  0 <= lt_balance (run (S n)) <= lt_balance (run n)
  /\ lt_balance (run n) <= property_price - down_payment.
Proof.
  intros Hloan Hreq. cbv zeta. unfold ltv_run.
  set (g := pow_twelfth (1 + real_estate_growth)).
  set (mma := ltv_min_monthly_amort property_price down_payment).
  set (s0 := ltv_init property_price down_payment).
  assert (Hm : 0 <= mma).
  { unfold mma, ltv_min_monthly_amort.
    apply Qle_shift_div_l; [reflexivity | lra]. }
  assert (Hstep : forall k,
             0 <= lt_balance (Py.for_range k
                                (ltv_month g strategy monthly_budget
                                   interest_rate mma) s0) ->
             0 <= lt_balance (Py.for_range (S k)
                                (ltv_month g strategy monthly_budget
                                   interest_rate mma) s0)
             <= lt_balance (Py.for_range k
                              (ltv_month g strategy monthly_budget
                                 interest_rate mma) s0)).
  { intros k Hb.
    rewrite (ltv_run_balance g monthly_budget interest_rate mma strategy
               s0 k).
    match goal with
    | |- context [Py.max 0 (?b - ?a)] =>
        assert (Ha : 0 <= a) by (apply ltv_monthly_amort_nonneg; assumption);
        destruct (max_cases 0 (b - a)) as [[? ->] | [? ->]]
    end; lra. }
  assert (Hall : forall k,
             0 <= lt_balance (Py.for_range k
                                (ltv_month g strategy monthly_budget
                                   interest_rate mma) s0)
             <= property_price - down_payment).
  { induction k as [|k IH]; [cbn; lra|].
    pose proof (Hstep k ltac:(lra)). lra. }
  pose proof (Hall n). pose proof (Hstep n ltac:(lra)). lra.
Qed.

Lemma ltv_balance_never_increases_witness :
  let run := ltv_run (fun x => x) 0 1000000 200000 3500 0.015 "hybrid" in
  lt_balance (run 360%nat) <= lt_balance (run 359%nat)
  /\ lt_balance (run 359%nat) <= 1000000 - 200000.
Proof.
  intro run.
  destruct (ltv_balance_never_increases (fun x => x) 0 1000000 200000 3500
              0.015 "hybrid" 359) as [[_ H1] H2];
    [discriminate | discriminate |].
  split; [exact H1 | exact H2].
Defined.

(** ** The strategy tag of the tracker *)

Lemma ltv_month_unknown_tag (monthly_growth : Q) (strategy : string)
    (monthly_budget interest_rate min_monthly_amort : Q)
    (s : ltv_state) (month : nat) :
  strategy <> "pure_max"%string ->
  strategy <> "hybrid"%string ->
  ltv_month monthly_growth strategy monthly_budget interest_rate
    min_monthly_amort s month
  = ltv_month monthly_growth "pure_invest" monthly_budget interest_rate
      min_monthly_amort s month.
Proof.
  intros Hmax Hhy. apply String.eqb_neq in Hmax, Hhy.
  unfold ltv_month, ltv_monthly_amort. rewrite Hmax, Hhy. reflexivity.
Qed.

(** X14.  The tracker does not reject a strategy tag it does not know: every
    string other than "pure_max" and "hybrid" is treated as "pure_invest",
    and yields the same years-to-target and the same two series. *)
Theorem ltv_unknown_strategy_is_pure_invest (pow_twelfth : Q -> Q)
    (real_estate_growth property_price down_payment monthly_budget
     interest_rate : Q) (strategy : string) :
  strategy <> "pure_max"%string ->
  strategy <> "hybrid"%string ->
  fst (calculate_ltv_progression pow_twelfth real_estate_growth
         property_price down_payment monthly_budget interest_rate strategy)
  = fst (calculate_ltv_progression pow_twelfth real_estate_growth
           property_price down_payment monthly_budget interest_rate
           "pure_invest").
Proof.
  intros Hmax Hhy.
  assert (Hrun : forall n,
             ltv_run pow_twelfth real_estate_growth property_price
               down_payment monthly_budget interest_rate strategy n
             = ltv_run pow_twelfth real_estate_growth property_price
                 down_payment monthly_budget interest_rate "pure_invest" n).
  { unfold ltv_run. induction n as [|n IH]; [reflexivity|].
    rewrite !for_range_S, IH.
    apply ltv_month_unknown_tag; assumption. }
  unfold calculate_ltv_progression. cbn [fst]. rewrite Hrun. reflexivity.
Qed.

Lemma ltv_unknown_strategy_is_pure_invest_witness :
  fst (calculate_ltv_progression (fun x => x) 0 1000000 200000 3500 0.015
         "pure_min")
  = fst (calculate_ltv_progression (fun x => x) 0 1000000 200000 3500 0.015
           "pure_invest").
Proof.
  apply ltv_unknown_strategy_is_pure_invest; discriminate.
Defined.

Section PureStrategies.

Variables (monthly_growth monthly_budget interest_rate
           min_monthly_amort : Q).
Variable s0 : ltv_state.

Let run_max (n : nat) : ltv_state :=
  Py.for_range n
    (ltv_month monthly_growth "pure_max" monthly_budget interest_rate
       min_monthly_amort) s0.
Let run_invest (n : nat) : ltv_state :=
  Py.for_range n
    (ltv_month monthly_growth "pure_invest" monthly_budget interest_rate
       min_monthly_amort) s0.

(** Until the target is reached the two pure strategies amortize alike, and
    afterwards neither touches the recorded year. *)
Lemma pure_strategies_agree (n : nat) :
  lt_years_to_target (run_max n) = lt_years_to_target (run_invest n)
  /\ lt_target_reached (run_max n) = lt_target_reached (run_invest n)
  /\ lt_property_value (run_max n) = lt_property_value (run_invest n)
  /\ (lt_target_reached (run_max n) = false ->
      lt_balance (run_max n) = lt_balance (run_invest n)).
Proof.
  induction n as [|n (Hy & Hr & Hv & Hb)].
  - cbn. auto.
  - assert (Hmax : run_max (S n)
                   = ltv_month monthly_growth "pure_max" monthly_budget
                       interest_rate min_monthly_amort (run_max n) n)
      by (unfold run_max; apply for_range_S).
    assert (Hinv : run_invest (S n)
                   = ltv_month monthly_growth "pure_invest" monthly_budget
                       interest_rate min_monthly_amort (run_invest n) n)
      by (unfold run_invest; apply for_range_S).
    destruct (ltv_month_fields monthly_growth monthly_budget interest_rate
                min_monthly_amort "pure_max" (run_max n) n)
      as (Hv1 & Hb1 & _ & _ & _ & Ht1).
    destruct (ltv_month_fields monthly_growth monthly_budget interest_rate
                min_monthly_amort "pure_invest" (run_invest n) n)
      as (Hv2 & Hb2 & _ & _ & _ & Ht2).
    rewrite <- Hmax in *. rewrite <- Hinv in *.
    rewrite <- Hv, <- Hy, <- Hr in *.
    destruct (lt_target_reached (run_max n)) eqn:Er; cbn [negb] in Ht1, Ht2.
    + assert (E1 : (lt_target_reached (run_max (S n)),
                    lt_years_to_target (run_max (S n)))
                   = (true, lt_years_to_target (run_max n)))
        by (rewrite Ht1;
            repeat match goal with
                   | |- context [if ?c then _ else _] => destruct c
                   end; reflexivity).
      assert (E2 : (lt_target_reached (run_invest (S n)),
                    lt_years_to_target (run_invest (S n)))
                   = (true, lt_years_to_target (run_max n)))
        by (rewrite Ht2;
            repeat match goal with
                   | |- context [if ?c then _ else _] => destruct c
                   end; reflexivity).
      injection E1 as -> ->. injection E2 as -> ->.
      rewrite Hv1, Hv2. repeat split; try reflexivity.
      intro Hf. discriminate Hf.
    + specialize (Hb eq_refl). rewrite <- Hb in Hb2, Ht2.
      assert (Et : (lt_target_reached (run_max (S n)),
                    lt_years_to_target (run_max (S n)))
                   = (lt_target_reached (run_invest (S n)),
                      lt_years_to_target (run_invest (S n))))
        by (rewrite Ht1, Ht2; reflexivity).
      injection Et as Er' Ey'.
      split; [exact Ey'|]. split; [exact Er'|].
      split; [rewrite Hv1, Hv2; reflexivity|].
      intro Hf. rewrite Hb1, Hb2.
      destruct (Qle_bool (ltv_current (lt_balance (run_max n))
                            (lt_property_value (run_max n) * monthly_growth))
                  0.667) eqn:El.
      * rewrite Hf in Ht1. discriminate Ht1.
      * unfold ltv_monthly_amort. rewrite El. reflexivity.
Qed.

End PureStrategies.

(** X15.  For every input, the tracker reports the same years-to-target under
    "pure_max" and under "pure_invest": the two strategies differ only after
    the target ratio has been reached. *)
Theorem pure_strategies_same_years_to_target (pow_twelfth : Q -> Q)
    (real_estate_growth property_price down_payment monthly_budget
     interest_rate : Q) :
  fst (fst (fst (calculate_ltv_progression pow_twelfth real_estate_growth
                   property_price down_payment monthly_budget interest_rate
                   "pure_max")))
  = fst (fst (fst (calculate_ltv_progression pow_twelfth real_estate_growth
                     property_price down_payment monthly_budget interest_rate
                     "pure_invest"))).
Proof.
  unfold calculate_ltv_progression. cbn [fst]. unfold ltv_run.
  apply (pure_strategies_agree (pow_twelfth (1 + real_estate_growth))
           monthly_budget interest_rate
           (ltv_min_monthly_amort property_price down_payment)
           (ltv_init property_price down_payment) 360).
Qed.

(** ** The plots' lookups into the series *)

Lemma sample_every_12_in_range (ltv : list Q) (indices : list nat) :
  (forall i, In i indices -> (i * 12 < List.length ltv)%nat) ->
  sample_every_12 ltv indices
  = Some (map (fun i => nth (i * 12) ltv 0) indices).
Proof.
  induction indices as [|i rest IH]; intro Hin; [reflexivity|].
  cbn [sample_every_12 map].
  rewrite (nth_error_nth' ltv 0) by (apply Hin; left; reflexivity).
  cbn [Py.bind]. rewrite IH by (intros j Hj; apply Hin; right; exact Hj).
  reflexivity.
Qed.

Lemma sample_every_12_out_of_range (ltv : list Q) (indices : list nat)
    (i : nat) :
  In i indices -> (List.length ltv <= i * 12)%nat ->
  sample_every_12 ltv indices = None.
Proof.
  induction indices as [|j rest IH]; intros Hin Hlen; [contradiction|].
  cbn [sample_every_12].
  destruct Hin as [-> | Hin].
  - apply nth_error_None in Hlen. rewrite Hlen. reflexivity.
  - destruct (nth_error ltv (j * 12)); [|reflexivity].
    cbn [Py.bind]. rewrite (IH Hin Hlen). reflexivity.
Qed.

(** X16.  The yearly samples of lines 703-705 read indices 0, 12, ..., 348: they
    raise [IndexError] on a series of at most 348 entries, and on a longer
    one return the 30 entries at those indices; on the tracker's own series
    they always succeed and return the ratio computed in the first month of
    each year. *)
Theorem yearly_ltv_in_range (ltv : list Q) (pow_twelfth : Q -> Q)
    (real_estate_growth property_price down_payment monthly_budget
     interest_rate : Q) (strategy : string) :
  ((List.length ltv <= 348)%nat -> yearly_ltv ltv = None)
  /\ ((348 < List.length ltv)%nat ->
      yearly_ltv ltv = Some (map (fun i => nth (i * 12) ltv 0) (seq 0 30)))
  /\ let run :=
       ltv_run pow_twelfth real_estate_growth property_price down_payment
         monthly_budget interest_rate strategy in
     yearly_ltv
       (snd (fst (calculate_ltv_progression pow_twelfth real_estate_growth
                    property_price down_payment monthly_budget interest_rate
                    strategy)))
     = Some (map (fun i => ltv_current (lt_balance (run (i * 12)%nat))
                             (lt_property_value (run (S (i * 12)))))
               (seq 0 30)).
Proof.
  assert (Hin : forall l : list Q, (348 < List.length l)%nat ->
            yearly_ltv l = Some (map (fun i => nth (i * 12) l 0) (seq 0 30))).
  { intros l Hlen. apply sample_every_12_in_range.
    intros i Hi. apply in_seq in Hi. lia. }
  split; [|split].
  - intro Hlen. apply (sample_every_12_out_of_range ltv (seq 0 30) 29).
    + apply in_seq. lia.
    + exact Hlen.
  - apply Hin.
  - cbv zeta. unfold calculate_ltv_progression. cbn [fst snd].
    unfold ltv_run.
    set (g := pow_twelfth (1 + real_estate_growth)).
    set (mma := ltv_min_monthly_amort property_price down_payment).
    set (s0 := ltv_init property_price down_payment).
    destruct (ltv_run_progressions g monthly_budget interest_rate mma
                strategy s0 360) as (Hl & _ & _).
    cbn [s0 ltv_init lt_ltv_progression app] in Hl.
    rewrite Hl, Hin by (rewrite length_map, length_seq; lia).
    f_equal. apply map_ext_in. intros i Hi. apply in_seq in Hi.
    rewrite nth_map_seq by lia.
    rewrite (ltv_run_property_value g monthly_budget interest_rate mma
               strategy s0 (i * 12)).
    reflexivity.
Qed.

Lemma yearly_ltv_in_range_witness :
  yearly_ltv (repeat 0 348) = None
  /\ yearly_ltv (repeat 1 349) = Some (repeat 1 30).
Proof.
  destruct (yearly_ltv_in_range (repeat 0 348) (fun x => x) 0 1000000 200000
              3500 0.015 "hybrid") as (Hshort & _ & _).
  destruct (yearly_ltv_in_range (repeat 1 349) (fun x => x) 0 1000000 200000
              3500 0.015 "hybrid") as (_ & Hlong & _).
  split.
  - apply Hshort. rewrite repeat_length. lia.
  - rewrite Hlong by (rewrite repeat_length; lia). reflexivity.
Defined.

Lemma years_to_target_range (monthly_growth monthly_budget interest_rate
    min_monthly_amort : Q) (strategy : string) (s0 : ltv_state) (y : nat) :
  lt_target_reached s0 = false ->
  lt_years_to_target s0 = None ->
  lt_years_to_target
    (Py.for_range 360
       (ltv_month monthly_growth strategy monthly_budget interest_rate
          min_monthly_amort) s0) = Some y ->
  (1 <= y <= 30)%nat.
Proof.
  intros Hr Hn Hy.
  destruct (ltv_run_target monthly_growth monthly_budget interest_rate
              min_monthly_amort strategy s0 360 Hr Hn) as [_ Ht].
  rewrite Ht in Hy.
  match type of Hy with
  | option_map _ ?f = _ => destruct f as [i|] eqn:Ef; [|discriminate Hy]
  end.
  assert (Hyeq : (i / 12 + 1)%nat = y)
    by (injection Hy; intro E; exact E).
  rewrite <- Hyeq. clear Hyeq Hy.
  destruct (first_index_Some _ _ 0 _ Ef) as (Hi & _).
  rewrite length_map, length_seq in Hi.
  assert (Hd : (i / 12 < 30)%nat)
    by (apply Nat.Div0.div_lt_upper_bound; lia).
  lia.
Qed.

(** X17.  The years-to-target of the tracker, when it is not [None], lies
    between 1 and 30; the marker lookup of lines 664-684, which reads the
    net-worth series of a simulator at index [years_to_target - 1], therefore
    never raises [IndexError].  It returns that year's net worth when the
    guard [(1 - equity/flat_price) > 0.667] of line 664 holds and a target
    year was found, and no marker otherwise. *)
Theorem completion_marker_in_range (pow_twelfth : Q -> Q)
    (real_estate_growth portfolio_return property_price down_payment
     monthly_budget interest_rate appreciation_rate : Q) (amort_years : Z)
    (continue_amortization : bool) (strategy : string) :
  ~ property_price == 0 ->
  let completion_year :=
    fst (fst (fst (calculate_ltv_progression pow_twelfth real_estate_growth
                     property_price down_payment monthly_budget
                     interest_rate strategy))) in
  let guard := Py.gtb (1 - down_payment / property_price) 0.667 in
  exists (re_series hy_series : list Q) (re_payoff hy_payoff : option nat),
    simulate_real_estate_strategy portfolio_return property_price
      down_payment monthly_budget interest_rate appreciation_rate
      amort_years continue_amortization
    = Some (re_series, re_payoff)
    /\ simulate_hybrid_strategy property_price down_payment monthly_budget
         interest_rate appreciation_rate portfolio_return amort_years
       = Some (hy_series, hy_payoff)
    /\ match completion_year with
       | None =>
           completion_marker property_price down_payment re_series
             completion_year = Some None
           /\ completion_marker property_price down_payment hy_series
                completion_year = Some None
       | Some y =>
           (1 <= y <= 30)%nat
           /\ completion_marker property_price down_payment re_series
                completion_year
              = Some (if guard then Some (nth (y - 1) re_series 0) else None)
           /\ completion_marker property_price down_payment hy_series
                completion_year
              = Some (if guard then Some (nth (y - 1) hy_series 0) else None)
       end.
Proof.
  intros Hnz. cbv zeta.
  unfold simulate_real_estate_strategy, simulate_hybrid_strategy,
    completion_marker.
  rewrite (div_Some _ _ Hnz). cbn [Py.bind].
  fold (min_amort_of_quotient property_price (property_price - down_payment)
          (down_payment / property_price)).
  set (m := min_amort_of_quotient _ _ _).
  rewrite real_estate_run_net_worth, hybrid_run_net_worth.
  eexists. eexists. eexists. eexists.
  split; [reflexivity|]. split; [reflexivity|].
  unfold calculate_ltv_progression. cbn [fst]. unfold ltv_run.
  destruct (lt_years_to_target _) as [y|] eqn:Ey.
  - apply years_to_target_range in Ey; [|reflexivity|reflexivity].
    split; [exact Ey|].
    destruct y as [|i]; [lia|].
    rewrite Nat.sub_1_r. cbn [Nat.pred].
    rewrite !(nth_error_nth' _ 0)
      by (rewrite length_map, length_seq; lia).
    destruct (Py.gtb (1 - down_payment / property_price) 0.667);
      split; reflexivity.
  - destruct (Py.gtb (1 - down_payment / property_price) 0.667);
      split; reflexivity.
Qed.

Lemma completion_marker_in_range_witness :
  exists (re_series : list Q) (re_payoff : option nat) (marker : option Q),
    simulate_real_estate_strategy 0.096 1000000 200000 3500 0.015 0.02 15 true
    = Some (re_series, re_payoff)
    /\ completion_marker 1000000 200000 re_series
         (fst (fst (fst (calculate_ltv_progression (fun x => x) 0 1000000
                           200000 3500 0.015 "pure_max"))))
       = Some marker.
Proof.
  destruct (completion_marker_in_range (fun x => x) 0 0.096 1000000 200000
              3500 0.015 0.02 15 true "pure_max")
    as (rs & hs & rp & hp & Hr & _ & Hm); [discriminate|].
  exists rs, rp.
  destruct (fst (fst (fst (calculate_ltv_progression (fun x => x) 0 1000000
                             200000 3500 0.015 "pure_max")))) as [y|].
  - destruct Hm as (_ & Hm & _). eexists. split; [exact Hr | exact Hm].
  - destruct Hm as (Hm & _). eexists. split; [exact Hr | exact Hm].
Defined.

(** * The code in binary64, where rounding decides *)

Module Rounding.
Import PrimFloat.
#[local] Set Warnings "-inexact-float".
Local Open Scope float_scope.

(** C4 as stated fails in binary64.  At [property_price = 1000] and
    [down_payment = 332.99999999999989] the loan is 667.00000000000011 and
    [loan / property_price] is 0.66700000000000015, above 0.667; the code
    compares [1 - down_payment / property_price], which rounds to a value
    not above 0.667, and returns 0, while
    [(loan - 0.667 * property_price) / 15] is positive. *)
Lemma C4_ratio_above_target_without_amortization :
  ltb 0 1000 = true
  /\ leb 0 (1000 - 332.99999999999989) = true
  /\ ltb 0.667 ((1000 - 332.99999999999989) / 1000) = true
  /\ Binary64.gtb (1 - 332.99999999999989 / 1000) 0.667 = false
  /\ Binary64.min_amort_per_year 1000 332.99999999999989 = Some 0
  /\ ltb 0 ((1000 - 332.99999999999989 - 0.667 * 1000) / 15) = true.
Proof. repeat split; vm_compute; reflexivity. Qed.

(** C9 as stated fails in binary64.  With the sliders at price 500000,
    equity 200000, budget 1100, interest 4.4% and no appreciation, under
    [pure_max]: the loan is below 0.667 of the price, the minimum monthly
    amortization is negative, the first month's interest
    (1100.0000000000002) exceeds the budget, the recorded amortization is
    negative (about -2.3e-13), and the balance after the month is the
    balance before it, 300000: it does not increase. *)
Lemma C9_negative_amortization_absorbed :
  ltb (500000 - 200000) (0.667 * 500000) = true
  /\ ltb (Binary64.ltv_min_monthly_amort 500000 200000) 0 = true
  /\ ltb 1100
       (Binary64.lt_balance
          (Binary64.ltv_run (fun x => x) 0 500000 200000 1100 (4.4 / 100)
             "pure_max" 0)
        * (4.4 / 100) / 12) = true
  /\ ltb (nth 0
            (Binary64.lt_amort_progression
               (Binary64.ltv_run (fun x => x) 0 500000 200000 1100
                  (4.4 / 100) "pure_max" 1)) 0) 0 = true
  /\ ltb (Binary64.lt_balance
            (Binary64.ltv_run (fun x => x) 0 500000 200000 1100 (4.4 / 100)
               "pure_max" 0))
         (Binary64.lt_balance
            (Binary64.ltv_run (fun x => x) 0 500000 200000 1100 (4.4 / 100)
               "pure_max" 1)) = false
  /\ Binary64.lt_balance
       (Binary64.ltv_run (fun x => x) 0 500000 200000 1100 (4.4 / 100)
          "pure_max" 1) = 300000
  /\ Binary64.lt_balance_progression
       (Binary64.ltv_run (fun x => x) 0 500000 200000 1100 (4.4 / 100)
          "pure_max" 1) = [300000].
Proof. repeat split; vm_compute; reflexivity. Qed.

(** C10 as stated fails in binary64.  With the sliders at price 700000,
    equity 250000, budget 2100, interest 5.6% and no appreciation, under
    [pure_max]: the first month records a positive amortization (about
    4.5e-13), which the balance of 450000 absorbs, so the recorded balance
    over the month's property value equals the recorded ratio,
    0.6428571428571429, and is not strictly below it. *)
Lemma C10_positive_amortization_absorbed :
  ltb 0 (nth 0
           (Binary64.lt_amort_progression
              (Binary64.ltv_run (fun x => x) 0 700000 250000 2100
                 (5.6 / 100) "pure_max" 1)) 0) = true
  /\ Binary64.lt_property_value
       (Binary64.ltv_run (fun x => x) 0 700000 250000 2100 (5.6 / 100)
          "pure_max" 1) = 700000
  /\ Binary64.lt_ltv_progression
       (Binary64.ltv_run (fun x => x) 0 700000 250000 2100 (5.6 / 100)
          "pure_max" 1) = [450000 / 700000]
  /\ Binary64.lt_balance_progression
       (Binary64.ltv_run (fun x => x) 0 700000 250000 2100 (5.6 / 100)
          "pure_max" 1) = [450000]
  /\ ltb (nth 0
            (Binary64.lt_balance_progression
               (Binary64.ltv_run (fun x => x) 0 700000 250000 2100
                  (5.6 / 100) "pure_max" 1)) 0
          / Binary64.lt_property_value
              (Binary64.ltv_run (fun x => x) 0 700000 250000 2100
                 (5.6 / 100) "pure_max" 1))
         (nth 0
            (Binary64.lt_ltv_progression
               (Binary64.ltv_run (fun x => x) 0 700000 250000 2100
                  (5.6 / 100) "pure_max" 1)) 0) = false.
Proof. repeat split; vm_compute; reflexivity. Qed.

End Rounding.
